(** * pyramid.js: a shallow embedding and its verification

    The development follows [src/js/lib/pyramid.js], a small D3 (version 3)
    helper that draws a stack of triangular slices, one per label.

    - JavaScript numbers are IEEE 754 binary64: they are Rocq's primitive
      floats.  The arithmetic of the geometry functions is written once, over
      an interface [Arith], and read at three carriers: binary64 numbers,
      JavaScript values (operators with their implicit conversions) and exact
      rationals (the arithmetic the comments of the source reason in).
    - Arrays are mutable and shared: they live in a heap and a value only
      holds their address.
    - [console.error], the heap and the document are threaded through a
      state-and-exception monad; a [throw] keeps the effects made so far.
    - What the source asks of the browser and of D3 beyond the DOM nodes it
      creates (string/number conversions, CSS selector matching) is the
      interface [Host]. *)

From Stdlib Require Import ZArith QArith Qcanon PrimFloat Uint63 Field Ascii String.
From stdpp Require Import gmap strings list fin_maps.

Set Warnings "-inexact-float,-register-all".

(** ** Arithmetic *)

Class Arith (num : Type) := {
  lit : Z -> num;
  add : num -> num -> num;
  sub : num -> num -> num;
  mul : num -> num -> num;
  div : num -> num -> num }.

Declare Scope js_scope.
Delimit Scope js_scope with js.
Infix "+" := add : js_scope.
Infix "-" := sub : js_scope.
Infix "*" := mul : js_scope.
Infix "/" := div : js_scope.

(** The binary64 number of an integer literal or of an array length
    (lengths are below 2^32, where the conversion is exact). *)
Definition float_of_Z (z : Z) : float :=
  match z with
  | Z0 => PrimFloat.of_uint63 0
  | Zpos _ => PrimFloat.of_uint63 (Uint63.of_Z z)
  | Zneg _ => PrimFloat.opp (PrimFloat.of_uint63 (Uint63.of_Z (- z)))
  end.

#[export] Instance binary64 : Arith float :=
  {| lit := float_of_Z;
     add := PrimFloat.add; sub := PrimFloat.sub;
     mul := PrimFloat.mul; div := PrimFloat.div |}.

#[export] Instance exact : Arith Qc :=
  {| lit := fun z => Q2Qc (inject_Z z);
     add := Qcplus; sub := Qcminus; mul := Qcmult; div := Qcdiv |}.

(** ** Geometry: [calcBaseToHeightRatio] and [generatePoints]

    The receiver [self] is read for one field each; that field is the
    first parameter here. *)

Section Geometry.
Context {num : Type} `{Arith num}.

Record point := Point { x : num; y : num }.

(* var maxWidth = this.dimensions.chart.width;
   var maxHeight = this.dimensions.chart.height;
   return maxWidth / 2 / maxHeight; *)
Definition calcBaseToHeightRatio (maxWidth maxHeight : num) : num :=
  (maxWidth / lit 2 / maxHeight)%js.

Definition generatePoints
    (baseToHeightRatio arrayIndex center sliceHeight : num) : list point :=
  let points := [] in
  (* create 3 vertices of a triangle *)
  let points := points ++ [ {| x := center; y := lit 0 |} ] in
  (* bottom-left vertex *)
  let points := points ++
    [ {| x := (center - (arrayIndex + lit 1) * baseToHeightRatio * sliceHeight)%js;
         y := (sliceHeight * (arrayIndex + lit 1))%js |} ] in
  (* bottom-right vertex *)
  let points := points ++
    [ {| x := (center + (arrayIndex + lit 1) * baseToHeightRatio * sliceHeight)%js;
         y := (sliceHeight * (arrayIndex + lit 1))%js |} ] in
  points.
End Geometry.
Arguments point : clear implicits.
Arguments Point {num}.

(** ** JavaScript values *)

Definition loc := nat.

Inductive value :=
| VUndefined
| VNull
| VBool (b : bool)
| VNum (n : float)
| VStr (s : string)
| VArr (l : loc)                      (* an array, by reference *)
| VObj (props : gmap string value)    (* an object literal, only ever read *)
| VFun (name : string).               (* a function of the host: a D3 scale *)

Inductive primitive :=
| PUndefined | PNull | PBool (b : bool) | PNum (n : float) | PStr (s : string).

Abbreviation heap := (gmap loc (list value)).

(** [!v] is [negb (truthy v)]: the falsy values are undefined, null,
    false, +0, -0, NaN and the empty string. *)
Definition truthy (v : value) : bool :=
  match v with
  | VUndefined | VNull => false
  | VBool b => b
  | VNum n => negb (PrimFloat.eqb n 0) && PrimFloat.eqb n n
  | VStr s => negb (String.eqb s "")
  | VArr _ | VObj _ | VFun _ => true
  end.

(** [a || b] *)
Definition or_else (a b : value) : value := if truthy a then a else b.

(** ** Completions and the monad *)

(** An abrupt completion is an exception the program throws, or
    [Escapes f]: control has passed to the function [f] that a value of the
    caller brought along, which the model does not follow; the run is cut
    off there. *)
Inductive error := TypeError | SyntaxError | Escapes (f : string).

Inductive completion (A : Type) :=
| Normal (a : A)
| Throw (e : error).
Arguments Normal {A}.
Arguments Throw {A}.

Definition M (S A : Type) : Type := S -> completion A * S.

#[export] Instance M_ret {S} : MRet (M S) := λ A a s, (Normal a, s).
#[export] Instance M_bind {S} : MBind (M S) := λ A B f m s,
  match m s with
  | (Normal a, s') => f a s'
  | (Throw e, s') => (Throw e, s')
  end.

Definition throw {S A} (e : error) : M S A := λ s, (Throw e, s).
Definition gets {S A} (f : S -> A) : M S A := λ s, (Normal (f s), s).
Definition modify {S} (f : S -> S) : M S unit := λ s, (Normal tt, f s).
Definition when {S} (b : bool) (m : M S unit) : M S unit :=
  if b then m else mret tt.

(** ** The document

    The nodes D3 creates are kept structurally: the [d] attribute of a
    path is the list of points handed to the line generator (the path is
    closed by the trailing ["Z"]), the [transform] of the group is the pair
    of offsets, the [fill] is the scale applied to the datum. *)

Record path_node := {
  path_d : list (point value);
  path_class : string;
  path_fill : option (string * value) }.

Record text_node := {
  text_content : value;
  text_x : value;
  text_y : value;
  text_class : string }.

Record g_node := {
  g_width : value;
  g_height : value;
  g_translate : value * value;
  g_class : value;
  g_paths : list path_node;
  g_texts : list text_node }.

Record svg_node := {
  svg_class : value;
  svg_width : value;
  svg_height : value;
  svg_children : list g_node }.

(** An element of the page, with the two computed style properties the
    constructor reads and the [svg] children appended to it. *)
Record element := {
  el_id : string;
  el_height : string;
  el_width : string;
  el_children : list svg_node }.

Abbreviation document := (list element).

(** ** The host *)

Class Host := {
  (* ToNumber on a string, ToString on a number, ToPrimitive on an object *)
  StringToNumber : string -> float;
  NumberToString : float -> string;
  ObjectToPrimitive : heap -> value -> primitive;
  (* document.querySelector: the index of the first matching element *)
  querySelector : document -> string -> completion (option nat);
  (* document.querySelectorAll: the matching nodes, as paths from the root *)
  querySelectorAll : document -> string -> completion (list (list nat)) }.

Section Conversions.
Context `{Host}.

Definition ToPrimitive (h : heap) (v : value) : primitive :=
  match v with
  | VUndefined => PUndefined
  | VNull => PNull
  | VBool b => PBool b
  | VNum n => PNum n
  | VStr s => PStr s
  | VArr _ | VObj _ | VFun _ => ObjectToPrimitive h v
  end.

Definition prim_to_number (p : primitive) : float :=
  match p with
  | PUndefined => nan
  | PNull => 0
  | PBool b => if b then 1 else 0
  | PNum n => n
  | PStr s => StringToNumber s
  end.

Definition prim_to_string (p : primitive) : string :=
  match p with
  | PUndefined => "undefined"
  | PNull => "null"
  | PBool b => if b then "true" else "false"
  | PNum n => NumberToString n
  | PStr s => s
  end.

Definition ToNumber (h : heap) (v : value) : float :=
  prim_to_number (ToPrimitive h v).
Definition ToString (h : heap) (v : value) : string :=
  prim_to_string (ToPrimitive h v).

(** [a + b] concatenates as soon as one side is a string. *)
Definition js_add (h : heap) (a b : value) : value :=
  match ToPrimitive h a, ToPrimitive h b with
  | PStr s, q => VStr (s ++ prim_to_string q)
  | p, PStr s => VStr (prim_to_string p ++ s)
  | p, q => VNum (prim_to_number p + prim_to_number q)
  end.

Definition js_sub (h : heap) (a b : value) : value :=
  VNum (ToNumber h a - ToNumber h b).
Definition js_mul (h : heap) (a b : value) : value :=
  VNum (ToNumber h a * ToNumber h b).
Definition js_div (h : heap) (a b : value) : value :=
  VNum (ToNumber h a / ToNumber h b).

(** The operators of the source, on values, at a given heap. *)
Definition js (h : heap) : Arith value :=
  {| lit := fun z => VNum (float_of_Z z);
     add := js_add h; sub := js_sub h; mul := js_mul h; div := js_div h |}.

(** [v == false] *)
Definition loosely_false (h : heap) (v : value) : bool :=
  match ToPrimitive h v with
  | PUndefined | PNull => false
  | p => PrimFloat.eqb (prim_to_number p) 0
  end.
End Conversions.

(** ** The renderer's state *)

Module margins.
Record t := mk { top : value; bottom : value; left : value; right : value }.
End margins.

Module chart.
Record t := mk { width : value; height : value }.
End chart.

Module dimensions.
Record t := mk {
  outerHeight : value;
  outerWidth : value;
  margins : margins.t;
  innerHeight : value;
  innerWidth : value;
  chart : option chart.t }.

Definition set_margins (m : margins.t) (d : t) : t :=
  mk (outerHeight d) (outerWidth d) m (innerHeight d) (innerWidth d) (chart d).
End dimensions.

(** The own properties of an instance, as the constructor creates them. *)
Module Pyramid.
Record t := mk {
  data : value;
  baseToHeightRatio : value;
  parentContainer : value;
  dimensions : dimensions.t;
  className : value;
  autoFit : value;
  colorScale : value }.

(* this.f = v *)
Definition set_baseToHeightRatio (v : value) (p : t) : t :=
  mk (data p) v (parentContainer p) (dimensions p) (className p) (autoFit p)
     (colorScale p).
Definition set_parentContainer (v : value) (p : t) : t :=
  mk (data p) (baseToHeightRatio p) v (dimensions p) (className p) (autoFit p)
     (colorScale p).
Definition set_dimensions (d : dimensions.t) (p : t) : t :=
  mk (data p) (baseToHeightRatio p) (parentContainer p) d (className p)
     (autoFit p) (colorScale p).
Definition set_className (v : value) (p : t) : t :=
  mk (data p) (baseToHeightRatio p) (parentContainer p) (dimensions p) v
     (autoFit p) (colorScale p).
Definition set_autoFit (v : value) (p : t) : t :=
  mk (data p) (baseToHeightRatio p) (parentContainer p) (dimensions p)
     (className p) v (colorScale p).
Definition set_colorScale (v : value) (p : t) : t :=
  mk (data p) (baseToHeightRatio p) (parentContainer p) (dimensions p)
     (className p) (autoFit p) v.
End Pyramid.

Record world := {
  console : list string;      (* the messages of console.error, oldest first *)
  store : heap;
  page : document }.

Record machine := { this : Pyramid.t; env : world }.

Definition console_error (msg : string) : M world unit :=
  modify (λ w, {| console := console w ++ [msg]; store := store w; page := page w |}).

(** Runs a computation of the world inside a method. *)
Definition lift {A} (m : M world A) : M machine A := λ s,
  let '(r, w) := m (env s) in (r, {| this := this s; env := w |}).

Definition update_this (f : Pyramid.t -> Pyramid.t) : M machine unit :=
  modify (λ s, {| this := f (this s); env := env s |}).

Definition update_dimensions (f : dimensions.t -> dimensions.t) : M machine unit :=
  update_this (λ p, Pyramid.set_dimensions (f (Pyramid.dimensions p)) p).

Definition update_margins (f : margins.t -> margins.t) : M machine unit :=
  update_dimensions (λ d, dimensions.set_margins (f (dimensions.margins d)) d).

Definition margins_of (s : machine) : margins.t :=
  dimensions.margins (Pyramid.dimensions (this s)).

(** The state after one more message on the console. *)
Definition logged (msg : string) (s : machine) : machine :=
  {| this := this s;
     env := {| console := console (env s) ++ [msg]; store := store (env s);
               page := page (env s) |} |}.

(** ** Strings, properties, arrays *)

(** [s.split(sep)] for a non-empty separator; [skip] counts the
    characters of a matched separator still to be passed over. *)
Fixpoint split_from (sep : string) (skip : nat) (cur s : string) : list string :=
  match s with
  | EmptyString => [cur]
  | String c s' =>
    match skip with
    | S k => split_from sep k cur s'
    | O =>
      if String.prefix sep s
      then cur :: split_from sep (String.length sep - 1) "" s'
      else split_from sep 0 (cur ++ String c "") s'
    end
  end.

Definition split (sep s : string) : list string := split_from sep 0 "" s.

(** [v.split(sep)]: only strings have the method; on undefined and null
    the property read throws, on the other values the call does.  (Objects
    that bring a callable [split] of their own are not modelled.) *)
Definition String_split {S} (v : value) (sep : string) : M S (list string) :=
  match v with
  | VStr s => mret (split sep s)
  | _ => throw TypeError
  end.

(** [v.name] for a data property. *)
Definition get_prop {S} (v : value) (name : string) : M S value :=
  match v with
  | VUndefined | VNull => throw TypeError
  | VObj props => mret (default VUndefined (props !! name))
  | _ => mret VUndefined
  end.

(** [v.reverse()]: an array is reversed in place and returned.  An
    object that carries a callable [reverse] of its own has that function
    called, and the run escapes into it.  Every other value has no [reverse]
    to call, which is a TypeError. *)
Definition Array_reverse (v : value) : M world value :=
  match v with
  | VArr l => λ w,
    match store w !! l with
    | Some xs =>
      (Normal (VArr l),
       {| console := console w; store := <[l := rev xs]> (store w); page := page w |})
    | None => (Throw TypeError, w)
    end
  | VObj props =>
    match props !! "reverse" with
    | Some (VFun f) => throw (Escapes f)
    | _ => throw TypeError
    end
  | _ => throw TypeError
  end.

(** The elements behind an array value.  [render] asks for them, and for
    their number, only of the array that [reverse] has just returned. *)
Definition Array_items (v : value) : M world (list value) :=
  match v with
  | VArr l => λ w,
    match store w !! l with
    | Some xs => (Normal xs, w)
    | None => (Throw TypeError, w)
    end
  | _ => throw TypeError
  end.

Definition Array_length (v : value) : M world value :=
  xs ← Array_items v; mret (VNum (float_of_Z (Z.of_nat (length xs)))).

(** Runs [f d i] on the items of a data join, in order. *)
Fixpoint each {St A B} (f : A -> nat -> M St B) (i : nat) (l : list A)
  : M St (list B) :=
  match l with
  | [] => mret []
  | d :: l' => b ← f d i; bs ← each f (S i) l'; mret (b :: bs)
  end.

(** ** The DOM and D3 operations the source uses *)

Definition getElementById (doc : document) (id : string) : option element :=
  find (λ e, String.eqb (el_id e) id) doc.

(** [window.getComputedStyle(parent, null)] refuses null. *)
Definition getComputedStyle {S} (parent : option element) : M S element :=
  match parent with
  | Some e => mret e
  | None => throw TypeError
  end.

(** [a[i]] on the result of a split. *)
Definition index (a : list string) (i : nat) : value :=
  match a !! i with
  | Some s => VStr s
  | None => VUndefined
  end.

(** What [d3.select] wraps: no node, an element of the page, or a truthy
    value that is not a node at all. *)
Inductive selection := NoNode | Node (i : nat) | NotANode.

Definition alter_last {A} (f : A -> A) (l : list A) : list A :=
  match length l with
  | O => l
  | S n => alter f n l
  end.

Definition update_page (f : document -> document) : M world unit :=
  modify (λ w, {| console := console w; store := store w; page := f (page w) |}).

Definition with_children (f : list svg_node -> list svg_node) (e : element) : element :=
  {| el_id := el_id e; el_height := el_height e; el_width := el_width e;
     el_children := f (el_children e) |}.

Definition with_canvas (f : g_node -> g_node) (s : svg_node) : svg_node :=
  {| svg_class := svg_class s; svg_width := svg_width s; svg_height := svg_height s;
     svg_children := alter_last f (svg_children s) |}.

(** [selection.append("svg").attr(...)]: a new last child of the selected
    element; on a value that is not a node the creation of the child throws. *)
Definition append_svg (sel : selection) (node : svg_node) : M world selection :=
  match sel with
  | NoNode => mret NoNode
  | NotANode => throw TypeError
  | Node i => update_page (alter (with_children (λ c, c ++ [node])) i);; mret (Node i)
  end.

(** [svg.append("g").attr(...)], on the [svg] just appended. *)
Definition append_g (sel : selection) (node : g_node) : M world selection :=
  match sel with
  | Node i =>
    update_page (alter (with_children (alter_last (λ s,
      {| svg_class := svg_class s; svg_width := svg_width s; svg_height := svg_height s;
         svg_children := svg_children s ++ [node] |}))) i);;
    mret (Node i)
  | _ => mret sel
  end.

(** Changes the group just appended, if there is one. *)
Definition update_canvas (sel : selection) (f : g_node -> g_node) : M world unit :=
  match sel with
  | Node i => update_page (alter (with_children (alter_last (with_canvas f))) i)
  | _ => mret tt
  end.

(** [selection.empty()]: true if the selection holds no element.  It is
    a test: the document is not touched. *)
Definition selection_empty {A} (nodes : list A) : bool :=
  match nodes with
  | [] => true
  | _ :: _ => false
  end.

Section Renderer.
Context `{Host}.

(** [d3.select(v)] *)
Definition d3_select (v : value) : M world selection :=
  match v with
  | VStr s => λ w,
    match querySelector (page w) s with
    | Normal (Some i) => (Normal (Node i), w)
    | Normal None => (Normal NoNode, w)
    | Throw e => (Throw e, w)
    end
  | _ => mret (if truthy v then NotANode else NoNode)
  end.

(** [d3.selectAll(v)] for a selector string: a query, the page is only read *)
Definition d3_selectAll (v : value) : M world (list (list nat)) :=
  match v with
  | VStr s => λ w,
    match querySelectorAll (page w) s with
    | Normal nodes => (Normal nodes, w)
    | Throw e => (Throw e, w)
    end
  | _ => mret []
  end.

(** The operators at the heap of the moment. *)
Definition js_now : M machine (Arith value) := gets (λ s, js (store (env s))).

(** *** The constructor *)

Definition new_Pyramid (data parentContainer className autoFit colorScale : value)
  : M world Pyramid.t :=
  when (negb (truthy data))
    (console_error "We have no data to put into the pyramid!");;
  when (negb (truthy parentContainer))
    (console_error "A parent element has not been specified!");;
  (* reference to dimensions object *)
  parts ← String_split parentContainer "#";
  h ← gets store;
  parent ← gets (λ w, getElementById (page w) (ToString h (index parts 1)));
  style ← getComputedStyle parent;
  let height := index (split "px" (el_height style)) 0 in
  let width := index (split "px" (el_width style)) 0 in
  mret (Pyramid.mk
    (* store a reference to the data *)
    data
    (* default baseToHeightRatio (a 3-4-5 right triangle!) *)
    (VNum (3 / 4))
    (* the DOM element into which the pyramid will go *)
    (or_else parentContainer VNull)
    (dimensions.mk height width
       (margins.mk (VNum 25) (VNum 25) (VNum 25) (VNum 25))
       VUndefined VUndefined None)
    (* name of class representing the pyramid SVG *)
    (or_else className (VStr "pyramid"))
    (* determines whether to auto-fit the pyramid in the container *)
    (VBool (if loosely_false h autoFit then false else true))
    (* default color scale *)
    (or_else colorScale (VFun "d3.scale.category20"))).
End Renderer.

(** *** The methods of [Pyramid.prototype] *)

Module prototype.
Section methods.
Context `{Host}.

Definition setColorScale (colorScale : value) : M machine unit :=
  when (negb (truthy colorScale))
    (lift (console_error "No color scale has been specified!"));;
  update_this (Pyramid.set_colorScale colorScale).

Definition setParentContainer (parentContainer : value) : M machine unit :=
  when (negb (truthy parentContainer))
    (lift (console_error "No parent container element has been specified!"));;
  update_this (Pyramid.set_parentContainer parentContainer).

Definition setClassName (className : value) : M machine unit :=
  when (negb (truthy className))
    (lift (console_error "No class name has been specified!"));;
  update_this (Pyramid.set_className className).

Definition setRelativeWidth (ratio : value) : M machine unit :=
  when (negb (truthy ratio))
    (lift (console_error "No relative width has been specified!"));;
  update_this (Pyramid.set_baseToHeightRatio ratio).

Definition autoFit (autoFit : value) : M machine unit :=
  update_this (Pyramid.set_autoFit autoFit).

(** [this.dimensions.chart] is undefined until [setDimensions] has run:
    reading its [width] then throws. *)
Definition this_chart : M machine chart.t :=
  c ← gets (λ s, dimensions.chart (Pyramid.dimensions (this s)));
  match c with
  | Some c => mret c
  | None => throw TypeError
  end.

Definition calcBaseToHeightRatio : M machine value :=
  J ← js_now;
  c ← this_chart;
  let maxWidth := chart.width c in
  let maxHeight := chart.height c in
  mret (calcBaseToHeightRatio maxWidth maxHeight).

Definition generatePoints (arrayIndex center sliceHeight : value)
  : M machine (list (point value)) :=
  J ← js_now;
  self ← gets this;
  mret (generatePoints (Pyramid.baseToHeightRatio self) arrayIndex center sliceHeight).

Definition setMargins (margins : value) : M machine unit :=
  when (negb (truthy margins))
    (lift (console_error "No margins have been specified!"));;
  top ← get_prop margins "top";
  when (truthy top) (update_margins (λ m,
    margins.mk top (margins.bottom m) (margins.left m) (margins.right m)));;
  bottom ← get_prop margins "bottom";
  when (truthy bottom) (update_margins (λ m,
    margins.mk (margins.top m) bottom (margins.left m) (margins.right m)));;
  left ← get_prop margins "left";
  when (truthy left) (update_margins (λ m,
    margins.mk (margins.top m) (margins.bottom m) left (margins.right m)));;
  right ← get_prop margins "right";
  when (truthy right) (update_margins (λ m,
    margins.mk (margins.top m) (margins.bottom m) (margins.left m) right)).

Definition setDimensions : M machine unit :=
  J ← js_now;
  d ← gets (λ s, Pyramid.dimensions (this s));
  let m := dimensions.margins d in
  let innerHeight :=
    (dimensions.outerHeight d - margins.top m - margins.bottom m)%js in
  let innerWidth :=
    (dimensions.outerWidth d - margins.left m - margins.right m)%js in
  update_dimensions (λ d, dimensions.mk (dimensions.outerHeight d)
    (dimensions.outerWidth d) (dimensions.margins d) innerHeight innerWidth
    (Some (chart.mk innerWidth innerHeight))).

(** [self.colorScale(d)]: the colour stays the application of the scale. *)
Definition call_colorScale (d : value) : M machine (string * value) :=
  scale ← gets (λ s, Pyramid.colorScale (this s));
  match scale with
  | VFun f => mret (f, d)
  | _ => throw TypeError
  end.

Definition render : M machine unit :=
  (* the triangles overlap each other so draw the largest first and
     the smaller ones on top of those *)
  data ← gets (λ s, Pyramid.data (this s));
  reversed ← lift (Array_reverse data);
  setDimensions;;
  J ← js_now;
  self ← gets this;
  (* draw the svg *)
  stale ← lift (d3_selectAll (VStr "." + Pyramid.className self)%js);
  let _ := selection_empty stale in
  container ← lift (d3_select (Pyramid.parentContainer self));
  svg ← lift (append_svg container
    {| svg_class := Pyramid.className self;
       svg_width := dimensions.outerWidth (Pyramid.dimensions self);
       svg_height := dimensions.outerHeight (Pyramid.dimensions self);
       svg_children := [] |});
  canvas ← lift (append_g svg
    {| g_width := dimensions.innerWidth (Pyramid.dimensions self);
       g_height := dimensions.innerHeight (Pyramid.dimensions self);
       g_translate :=
         (margins.left (dimensions.margins (Pyramid.dimensions self)),
          margins.top (dimensions.margins (Pyramid.dimensions self)));
       g_class := Pyramid.className self;
       g_paths := []; g_texts := [] |});
  c ← this_chart;
  length ← lift (Array_length data);
  let center := (chart.width c / lit 2)%js in
  let sliceHeight := (chart.height c / length)%js in
  (* set the baseToHeight ratio *)
  when (truthy (Pyramid.autoFit self))
    (ratio ← calcBaseToHeightRatio; setRelativeWidth ratio);;
  (* draw triangles and render text labels *)
  match canvas with
  | Node _ =>
    items ← lift (Array_items reversed);
    (* plot points: attr({d, class, fill}) sets d on every path, then the
       class, then the fill *)
    ds ← each (λ d i,
           (* generate points *)
           generatePoints (length - lit (Z.of_nat i) - lit 1)%js center sliceHeight)
         0 items;
    lift (update_canvas canvas (λ g,
      {| g_width := g_width g; g_height := g_height g;
         g_translate := g_translate g; g_class := g_class g;
         g_paths := (λ points, {| path_d := points; path_class := "slice triangle";
                                  path_fill := None |}) <$> ds;
         g_texts := g_texts g |}));;
    fills ← each (λ d i, call_colorScale d) 0 items;
    lift (update_canvas canvas (λ g,
      {| g_width := g_width g; g_height := g_height g;
         g_translate := g_translate g; g_class := g_class g;
         g_paths := zip_with (λ p fill,
           {| path_d := path_d p; path_class := path_class p;
              path_fill := Some fill |}) (g_paths g) fills;
         g_texts := g_texts g |}));;
    (* render text labels *)
    lift (update_canvas canvas (λ g,
      {| g_width := g_width g; g_height := g_height g;
         g_translate := g_translate g; g_class := g_class g;
         g_paths := g_paths g;
         g_texts := imap (λ i d,
           {| text_content := d;
              text_x := center;
              text_y := ((length - lit (Z.of_nat i)) * sliceHeight
                         - sliceHeight / VNum 2.5)%js;
              text_class := "pyramid-label" |}) items |}))
  | _ => mret tt
  end.
End methods.
End prototype.

(** ** Property lookup and method calls

    [p.name] is looked up among the own properties of the instance first
    and on [Pyramid.prototype] next.  (The properties every object inherits
    from [Object.prototype] are left out.) *)

Inductive method :=
| m_setColorScale | m_setParentContainer | m_setClassName | m_setRelativeWidth
| m_autoFit | m_calcBaseToHeightRatio | m_generatePoints | m_setMargins
| m_setDimensions | m_render.

Definition Pyramid_prototype : gmap string method :=
  list_to_map
    [ ("setColorScale", m_setColorScale);
      ("setParentContainer", m_setParentContainer);
      ("setClassName", m_setClassName);
      ("setRelativeWidth", m_setRelativeWidth);
      ("autoFit", m_autoFit);
      ("calcBaseToHeightRatio", m_calcBaseToHeightRatio);
      ("generatePoints", m_generatePoints);
      ("setMargins", m_setMargins);
      ("setDimensions", m_setDimensions);
      ("render", m_render) ].

Inductive property :=
| Own (v : value)                   (* an own property holding a value *)
| OwnDimensions (d : dimensions.t)  (* the own property [dimensions] *)
| Inherited (m : method)
| Absent.

Definition own_properties (p : Pyramid.t) : gmap string property :=
  list_to_map
    [ ("data", Own (Pyramid.data p));
      ("baseToHeightRatio", Own (Pyramid.baseToHeightRatio p));
      ("parentContainer", Own (Pyramid.parentContainer p));
      ("dimensions", OwnDimensions (Pyramid.dimensions p));
      ("className", Own (Pyramid.className p));
      ("autoFit", Own (Pyramid.autoFit p));
      ("colorScale", Own (Pyramid.colorScale p)) ].

Definition lookup_property (p : Pyramid.t) (name : string) : property :=
  match own_properties p !! name with
  | Some own => own
  | None =>
    match Pyramid_prototype !! name with
    | Some m => Inherited m
    | None => Absent
    end
  end.

Inductive result :=
| RUndefined
| RValue (v : value)
| RPoints (points : list (point value))
| RHostCall (f : string) (args : list value).

Section Calls.
Context `{Host}.

Definition arg (args : list value) (i : nat) : value := default VUndefined (args !! i).

Definition run (m : method) (args : list value) : M machine result :=
  match m with
  | m_setColorScale => prototype.setColorScale (arg args 0);; mret RUndefined
  | m_setParentContainer => prototype.setParentContainer (arg args 0);; mret RUndefined
  | m_setClassName => prototype.setClassName (arg args 0);; mret RUndefined
  | m_setRelativeWidth => prototype.setRelativeWidth (arg args 0);; mret RUndefined
  | m_autoFit => prototype.autoFit (arg args 0);; mret RUndefined
  | m_calcBaseToHeightRatio => v ← prototype.calcBaseToHeightRatio; mret (RValue v)
  | m_generatePoints =>
    points ← prototype.generatePoints (arg args 0) (arg args 1) (arg args 2);
    mret (RPoints points)
  | m_setMargins => prototype.setMargins (arg args 0);; mret RUndefined
  | m_setDimensions => prototype.setDimensions;; mret RUndefined
  | m_render => prototype.render;; mret RUndefined
  end.

(** [p.name(args)]: calling something that is not a function throws. *)
Definition call (name : string) (args : list value) : M machine result :=
  self ← gets this;
  match lookup_property self name with
  | Inherited m => run m args
  | Own (VFun f) => mret (RHostCall f args)
  | _ => throw TypeError
  end.

(** A program run on an instance. *)
Definition on {A} (p : Pyramid.t) (m : M machine A) (w : world)
  : completion A * machine :=
  m {| this := p; env := w |}.
End Calls.

(** ** A host for the examples

    Decimal digit strings convert to their number, the selectors are the
    id selector [#id] and the class selector [.name]; no example reaches the
    other conversions. *)

Definition digit (c : ascii) : option Z :=
  let n := Z.of_nat (nat_of_ascii c) in
  if bool_decide (48 ≤ n ≤ 57)%Z then Some (n - 48)%Z else None.

Fixpoint digits (acc : Z) (s : string) : option Z :=
  match s with
  | EmptyString => Some acc
  | String c s' =>
    match digit c with
    | Some d => digits (10 * acc + d) s'
    | None => None
    end
  end.

Definition page_StringToNumber (s : string) : float :=
  match digits 0 s with
  | Some z => float_of_Z z
  | None => nan
  end.

Definition page_querySelector (doc : document) (sel : string)
  : completion (option nat) :=
  match sel with
  | EmptyString => Throw SyntaxError
  | String "#" id => Normal (fst <$> list_find (λ e, el_id e = id) doc)
  | _ => Normal None
  end.

Definition page_querySelectorAll (doc : document) (sel : string)
  : completion (list (list nat)) :=
  match sel with
  | String "." (String c name) =>
    let cls := VStr (String c name) in
    let has (v : value) :=
      match v with VStr s => String.eqb s (String c name) | _ => false end in
    Normal (mjoin (imap (λ i e,
      mjoin (imap (λ j s,
        (if has (svg_class s) then [[i; j]] else []) ++
        mjoin (imap (λ k g, if has (g_class g) then [[i; j; k]] else [])
                 (svg_children s)))
        (el_children e))) doc))
  | String "." EmptyString | EmptyString => Throw SyntaxError
  | _ => Normal []
  end.

#[export] Instance page_host : Host :=
  {| StringToNumber := page_StringToNumber;
     NumberToString := λ _, "NaN";
     ObjectToPrimitive := λ _ _, PStr "[object Object]";
     querySelector := page_querySelector;
     querySelectorAll := page_querySelectorAll |}.

(** The sample page: one container of 300 by 400 pixels, and the caller's
    array of two labels at address 0. *)
Definition sample_page : document :=
  [ {| el_id := "visualization"; el_height := "400px"; el_width := "300px";
       el_children := [] |} ].

Definition sample_world : world :=
  {| console := []; store := {[ 0 := [VStr "A"; VStr "B"] ]}; page := sample_page |}.

(** [new Pyramid(data, "#visualization", "pyramid-2", true)] on that page *)
Definition sample_pyramid : Pyramid.t :=
  Pyramid.mk (VArr 0) (VNum 0.75) (VStr "#visualization")
    (dimensions.mk (VStr "400") (VStr "300")
       (margins.mk (VNum 25) (VNum 25) (VNum 25) (VNum 25))
       VUndefined VUndefined None)
    (VStr "pyramid-2") (VBool true) (VFun "d3.scale.category20").

Definition sample_machine : machine :=
  {| this := sample_pyramid; env := sample_world |}.

(** What a caller sees of the drawing: per [svg] child of an element, the
    point lists of its polygons and the text and position of its labels. *)
Definition polygons (s : svg_node) : list (list (point value)) :=
  g ← svg_children s; path_d <$> g_paths g.

Definition labels (s : svg_node) : list (value * value * value) :=
  g ← svg_children s; (λ t, (text_content t, text_x t, text_y t)) <$> g_texts g.

Definition drawn (w : world) (i : nat) : list svg_node :=
  match page w !! i with
  | Some e => el_children e
  | None => []
  end.

(** The four sides of the margins, for statements about [setMargins]. *)
Inductive side := side_top | side_bottom | side_left | side_right.

Definition side_name (sd : side) : string :=
  match sd with
  | side_top => "top"
  | side_bottom => "bottom"
  | side_left => "left"
  | side_right => "right"
  end.

Definition margin_side (sd : side) (m : margins.t) : value :=
  match sd with
  | side_top => margins.top m
  | side_bottom => margins.bottom m
  | side_left => margins.left m
  | side_right => margins.right m
  end.

(** What [if (margins.side) this.dimensions.margins.side = margins.side]
    leaves in a side. *)
Definition merge_side (given old : value) : value :=
  if truthy given then given else old.

(** The data property [name] of an argument that is not null or undefined. *)
Definition field (arg : value) (name : string) : value :=
  match arg with
  | VObj props => default VUndefined (props !! name)
  | _ => VUndefined
  end.

Definition merged_margins (arg : value) (m : margins.t) : margins.t :=
  margins.mk (merge_side (field arg "top") (margins.top m))
             (merge_side (field arg "bottom") (margins.bottom m))
             (merge_side (field arg "left") (margins.left m))
             (merge_side (field arg "right") (margins.right m)).

(** A computation that leaves the heap as it found it. *)
Definition keeps_store {A} (m : M machine A) : Prop :=
  ∀ s, store (env (m s).2) = store (env s).

Definition keeps_store_w {A} (m : M world A) : Prop :=
  ∀ w, store (m w).2 = store w.

(** ** The sample application

    The second source file builds its dataset, constructs a pyramid on
    [#visualization] and renders it once the document is ready. *)

(** [[]]: a new, empty array at an address the heap does not use. *)
Definition Array_new : M world value := λ w,
  let l := fresh (dom (store w)) in
  (Normal (VArr l),
   {| console := console w; store := <[l := []]> (store w); page := page w |}).

(** [v.push(x)] *)
Definition Array_push (v x : value) : M world unit :=
  match v with
  | VArr l => λ w,
    match store w !! l with
    | Some xs =>
      (Normal tt,
       {| console := console w; store := <[l := xs ++ [x]]> (store w); page := page w |})
    | None => (Throw TypeError, w)
    end
  | _ => throw TypeError
  end.

Definition generateMoreData : M world value :=
  observations ← Array_new;
  Array_push observations (VStr "Physiological");;
  Array_push observations (VStr "Safety");;
  Array_push observations (VStr "Love/Belonging");;
  Array_push observations (VStr "Esteem");;
  Array_push observations (VStr "Self-actualization");;
  Array_reverse observations.

(** Runs a program of method calls on an instance and hands the instance
    back with the world. *)
Definition with_instance {A} (p : Pyramid.t) (m : M machine A) : M world Pyramid.t := λ w,
  let '(r, s) := m {| this := p; env := w |} in
  (match r with
   | Normal _ => Normal (this s)
   | Throw e => Throw e
   end, env s).

Section Application.
Context `{Host}.

(** The handler given to [$(document).ready]; it returns the pyramid it
    has rendered. *)
Definition ready : M world Pyramid.t :=
  (* generate some data *)
  data ← generateMoreData;
  (* specify a parent DOM element for the pyramid *)
  let parent := VStr "#visualization" in
  let className := VStr "pyramid-2" in
  (* create a pyramid *)
  pyramid ← new_Pyramid data parent className (VBool true) VUndefined;
  with_instance pyramid
    ((* optionally, you can manually change the relative width of the pyramid *)
     call "setRelativeWidth" [VNum 0.75];;
     (* adjust the margins, if necessary *)
     call "setMargins" [VObj {[ "left" := VNum 40 ]}];;
     (* render the pyramid *)
     call "render" []).
End Application.

(** The world after the diagnostics of the constructor. *)
Definition diagnosed (data parentContainer : value) (w : world) : world :=
  {| console := console w
       ++ (if truthy data then [] else ["We have no data to put into the pyramid!"])
       ++ (if truthy parentContainer then []
           else ["A parent element has not been specified!"]);
     store := store w; page := page w |}.

(** A computation that leaves [f this] as it found it. *)
Definition keeps_this {T A} (f : Pyramid.t → T) (m : M machine A) : Prop :=
  ∀ s, f (this (m s).2) = f (this s).

(** What the caller configures: everything but the ratio and the derived
    dimensions. *)
Definition settings (p : Pyramid.t) :=
  (Pyramid.data p, Pyramid.parentContainer p, Pyramid.className p,
   Pyramid.autoFit p, Pyramid.colorScale p,
   dimensions.outerHeight (Pyramid.dimensions p),
   dimensions.outerWidth (Pyramid.dimensions p),
   dimensions.margins (Pyramid.dimensions p)).


(** The fill attribute of every polygon of an [svg]. *)
Definition fills (s : svg_node) : list (option (string * value)) :=
  g ← svg_children s; path_fill <$> g_paths g.

(** Whether [v.reverse] is nothing that can be called: [v] is undefined,
    null, a boolean, a number, a string, or an object without a callable
    [reverse]. *)
Definition lacks_reverse (v : value) : bool :=
  match v with
  | VArr _ | VFun _ => false
  | VObj props =>
    match props !! "reverse" with
    | Some (VFun _) => false
    | _ => true
    end
  | _ => true
  end.

(** The characters of a string. *)
Fixpoint chars (s : string) : list ascii :=
  match s with
  | EmptyString => []
  | String c s' => c :: chars s'
  end.

(** * Geometry *)

Lemma lit_exact_add (a b : Z) : (lit a + lit b)%js = (lit (a + b) : Qc).
Proof.
  apply Qc_is_canon. simpl. rewrite !Qred_correct.
  rewrite inject_Z_plus. reflexivity.
Qed.

Lemma lit_exact_sub (a b : Z) : (lit a - lit b)%js = (lit (a - b) : Qc).
Proof.
  apply Qc_is_canon. simpl. rewrite !Qred_correct.
  unfold Z.sub. rewrite inject_Z_plus, inject_Z_opp. reflexivity.
Qed.

Lemma lit_exact_nonzero (n : Z) : n ≠ 0%Z → (lit n : Qc) ≠ 0%Qc.
Proof.
  intros Hn Heq. apply Hn.
  assert (Hq : (inject_Z n == 0)%Q).
  { apply (f_equal Qcanon.this) in Heq. simpl in Heq.
    rewrite <- (Qred_correct (inject_Z n)), Heq. reflexivity. }
  unfold Qeq in Hq. simpl in Hq. lia.
Qed.

Lemma lit_exact_two : (lit 2 : Qc) = (1 + 1)%Qc.
Proof. apply Qc_is_canon. reflexivity. Qed.

(** On numbers, the operators of JavaScript are those of binary64: what the
    methods compute on number arguments is what the geometry gives at the
    carrier [float]. *)
Lemma generatePoints_on_numbers `{Host} (h : heap) (ratio i center sliceHeight : float) :
  @generatePoints value (js h) (VNum ratio) (VNum i) (VNum center) (VNum sliceHeight)
  = (λ p, Point (VNum (x p)) (VNum (y p)))
      <$> @generatePoints float binary64 ratio i center sliceHeight.
Proof. reflexivity. Qed.

Lemma calcBaseToHeightRatio_on_numbers `{Host} (h : heap) (w ht : float) :
  @calcBaseToHeightRatio value (js h) (VNum w) (VNum ht)
  = VNum (@calcBaseToHeightRatio float binary64 w ht).
Proof. reflexivity. Qed.

(** C5, counterexample: in binary64, the slice of index 0 around the
    centre 0.1, of height 1 and ratio 0.2, has its base corners at
    -0.1 and 0.30000000000000004, whose sum is not 0.2. *)
Lemma generatePoints_binary64_base_sum :
  PrimFloat.ltb 0 0.2 = true ∧
  ∃ apex bottomLeft bottomRight : point float,
    generatePoints 0.2%float (lit 0) 0.1%float 1%float
      = [apex; bottomLeft; bottomRight] ∧
    PrimFloat.eqb (x bottomLeft + x bottomRight)%js (lit 2 * 0.1%float)%js = false.
Proof.
  split; [reflexivity|].
  eexists _, _, _. split; [reflexivity|]. reflexivity.
Qed.

(** C5, as amended: for every stack index [i], centre, slice height and
    ratio, [generatePoints] returns exactly three points, the apex
    (centre, 0) and the base corners (centre - (i+1)*ratio*height,
    height*(i+1)) and (centre + (i+1)*ratio*height, height*(i+1)), each
    coordinate computed in the arithmetic at hand (binary64 in the
    program); in exact arithmetic the x-coordinates of the two base corners
    add up to twice the centre. *)
Theorem generatePoints_vertices :
  (∀ (num : Type) (A : Arith num) (ratio center sliceHeight : num) (i : nat),
     let k := (lit (Z.of_nat i) + lit 1)%js in
     generatePoints ratio (lit (Z.of_nat i)) center sliceHeight =
       [ Point center (lit 0);
         Point (center - k * ratio * sliceHeight)%js (sliceHeight * k)%js;
         Point (center + k * ratio * sliceHeight)%js (sliceHeight * k)%js ])
  ∧
  (∀ (ratio center sliceHeight : Qc) (i : nat),
     let k : Qc := lit (Z.of_nat i + 1) in
     ∃ apex bottomLeft bottomRight : point Qc,
       generatePoints ratio (lit (Z.of_nat i)) center sliceHeight
         = [apex; bottomLeft; bottomRight] ∧
       apex = Point center 0%Qc ∧
       bottomLeft = Point (center - k * ratio * sliceHeight)%Qc (k * sliceHeight)%Qc ∧
       bottomRight = Point (center + k * ratio * sliceHeight)%Qc (k * sliceHeight)%Qc ∧
       (x bottomLeft + x bottomRight = lit 2 * center)%Qc).
Proof.
  split.
  - reflexivity.
  - intros ratio center sliceHeight i k.
    eexists _, _, _. split; [reflexivity|].
    rewrite (lit_exact_add (Z.of_nat i) 1). fold k.
    repeat split.
    + f_equal. simpl. ring.
    + f_equal. simpl. ring.
    + simpl. change (Q2Qc (inject_Z 2)) with (lit 2 : Qc).
      rewrite lit_exact_two. ring.
Qed.

(** C6, counterexample: in binary64, for a chart of 110 by 275 and three
    items, the auto-fit ratio puts the base corners of the widest slice at
    -1.4210854715202004e-14 and 110.00000000000001, which are
    110.00000000000003 apart, not 110. *)
Lemma calcBaseToHeightRatio_binary64_span :
  PrimFloat.ltb 0 275 = true ∧
  ∃ apex bottomLeft bottomRight : point float,
    generatePoints (calcBaseToHeightRatio 110%float 275%float)
      (lit 3 - lit 0 - lit 1)%js (110%float / lit 2)%js (275%float / lit 3)%js
      = [apex; bottomLeft; bottomRight] ∧
    PrimFloat.eqb (x bottomRight - x bottomLeft)%js 110 = false.
Proof.
  split; [reflexivity|].
  eexists _, _, _. split; [reflexivity|]. reflexivity.
Qed.

(** In binary64 the span is not even within a tolerance of the chart
    width: for a chart of 110 by 2^-1060 and three items the ratio overflows
    and the base corners of the widest slice lie at minus and plus
    infinity. *)
Example calcBaseToHeightRatio_binary64_span_infinite :
  PrimFloat.ltb 0 0x1p-1060 = true ∧
  ∃ apex bottomLeft bottomRight : point float,
    generatePoints (calcBaseToHeightRatio 110%float 0x1p-1060%float)
      (lit 3 - lit 0 - lit 1)%js (110%float / lit 2)%js (0x1p-1060%float / lit 3)%js
      = [apex; bottomLeft; bottomRight] ∧
    PrimFloat.eqb (x bottomRight - x bottomLeft)%js infinity = true.
Proof.
  split; [reflexivity|].
  eexists _, _, _. split; [reflexivity|]. reflexivity.
Qed.

(** C6, as amended: [calcBaseToHeightRatio] returns
    (chartWidth / 2) / chartHeight, and in exact arithmetic, for any
    chartHeight > 0 and item count N > 0, with that ratio and the slice
    height chartHeight / N the base of the widest slice (the first one
    drawn, of stack index N - 0 - 1) spans exactly chartWidth. *)
Theorem calcBaseToHeightRatio_fills_width
    (chartWidth chartHeight center : Qc) (N : nat) :
  (0 < chartHeight)%Qc → (0 < N)%nat →
  let ratio := calcBaseToHeightRatio chartWidth chartHeight in
  let sliceHeight := (chartHeight / lit (Z.of_nat N))%js in
  (∀ (num : Type) (A : Arith num) (w h : num),
     calcBaseToHeightRatio w h = (w / lit 2 / h)%js) ∧
  ratio = (chartWidth / lit 2 / chartHeight)%Qc ∧
  ∃ apex bottomLeft bottomRight : point Qc,
    generatePoints ratio (lit (Z.of_nat N) - lit 0 - lit 1)%js center sliceHeight
      = [apex; bottomLeft; bottomRight] ∧
    (x bottomRight - x bottomLeft = chartWidth)%Qc.
Proof.
  intros HH HN ratio sliceHeight.
  split; [reflexivity|]. split; [reflexivity|].
  eexists _, _, _. split; [reflexivity|].
  assert (Hh : chartHeight ≠ 0%Qc).
  { intros Heq. symmetry in Heq. revert Heq. apply Qclt_not_eq, HH. }
  assert (Hn : (lit (Z.of_nat N) : Qc) ≠ 0%Qc) by (apply lit_exact_nonzero; lia).
  assert (H2 : (1 + 1)%Qc ≠ 0%Qc) by discriminate.
  subst ratio sliceHeight. unfold calcBaseToHeightRatio.
  rewrite !lit_exact_sub, lit_exact_add.
  replace (Z.of_nat N - 0 - 1 + 1)%Z with (Z.of_nat N) by lia.
  rewrite lit_exact_two. simpl. field. auto.
Qed.

Lemma calcBaseToHeightRatio_fills_width_witness :
  (0 < lit 350)%Qc ∧
  ∃ apex bottomLeft bottomRight : point Qc,
    generatePoints (calcBaseToHeightRatio (lit 250) (lit 350))
      (lit 3 - lit 0 - lit 1)%js (lit 250 / lit 2)%js (lit 350 / lit 3)%js
      = [apex; bottomLeft; bottomRight] ∧
    (x bottomRight - x bottomLeft = lit 250)%Qc.
Proof.
  split; [reflexivity|].
  apply (calcBaseToHeightRatio_fills_width (lit 250) (lit 350)
           (lit 250 / lit 2)%js 3); [reflexivity | lia].
Defined.

(** * The sample instance *)

Example new_Pyramid_sample :
  new_Pyramid (VArr 0) (VStr "#visualization") (VStr "pyramid-2") (VBool true)
    VUndefined sample_world
  = (Normal sample_pyramid, sample_world).
Proof. reflexivity. Qed.

(** * Setters *)

Section Setters.
Context `{Host}.

Lemma this_eta (p : Pyramid.t) :
  Pyramid.mk (Pyramid.data p) (Pyramid.baseToHeightRatio p) (Pyramid.parentContainer p)
    (Pyramid.dimensions p) (Pyramid.className p) (Pyramid.autoFit p)
    (Pyramid.colorScale p) = p.
Proof. by destruct p. Qed.

(** An object argument is merged side by side, and nothing else moves. *)
Lemma setMargins_object (s : machine) (props : gmap string value) :
  prototype.setMargins (VObj props) s =
    (Normal tt,
     {| this := Pyramid.set_dimensions
                  (dimensions.set_margins (merged_margins (VObj props) (margins_of s))
                     (Pyramid.dimensions (this s))) (this s);
        env := env s |}).
Proof.
  destruct s as [[d r pc [oh ow [t b l rt] ih iw c] cls af cs] w].
  unfold prototype.setMargins, merged_margins, merge_side, margins_of, field.
  cbn -[truthy].
  unfold mbind, M_bind, get_prop, when, update_margins, update_dimensions,
    update_this, modify, mret, M_ret.
  cbn -[truthy].
  destruct (truthy (default VUndefined (props !! "top")));
    destruct (truthy (default VUndefined (props !! "bottom")));
    destruct (truthy (default VUndefined (props !! "left")));
    destruct (truthy (default VUndefined (props !! "right")));
    reflexivity.
Qed.

(** Whatever the argument, each side ends as [merge_side] says. *)
Lemma setMargins_margins (s : machine) (arg : value) :
  margins_of (prototype.setMargins arg s).2 = merged_margins arg (margins_of s).
Proof.
  destruct arg as [| |vb|vn|vs|vl|props|vf];
    try rewrite setMargins_object;
    destruct s as [[d r pc [oh ow [t b l rt] ih iw c] cls af cs] w];
    try reflexivity.
  - (* a boolean *) by destruct vb.
  - (* a number *)
    unfold prototype.setMargins. cbn -[truthy].
    unfold mbind, M_bind, when. destruct (negb (truthy (VNum vn))); reflexivity.
  - (* a string *)
    unfold prototype.setMargins. cbn -[truthy].
    unfold mbind, M_bind, when. destruct (negb (truthy (VStr vs))); reflexivity.
Qed.
End Setters.

(** C3, counterexample: [setColorScale(null)] on the sample instance logs
    its error and then stores null over the D3 scale the instance had. *)
Lemma setColorScale_null_overwrites :
  truthy VNull = false ∧
  Pyramid.colorScale (this sample_machine) = VFun "d3.scale.category20" ∧
  ∃ s', prototype.setColorScale VNull sample_machine = (Normal tt, s') ∧
        console (env s') = ["No color scale has been specified!"] ∧
        Pyramid.colorScale (this s') = VNull.
Proof. repeat split. eexists. repeat split. Qed.

(** C3, as amended: called with a falsy argument, each of setColorScale,
    setClassName, setRelativeWidth and setParentContainer logs its error and
    then stores the argument in its field (colorScale, className,
    baseToHeightRatio, parentContainer), changing nothing else; setMargins
    logs its error and leaves the whole instance, margins included, as it
    was (on null and undefined it then throws a TypeError). *)
Theorem setters_on_falsy_argument `{Host} (s : machine) (v : value) :
  truthy v = false →
  prototype.setColorScale v s =
    (Normal tt,
     {| this := Pyramid.set_colorScale v (this s);
        env := env (logged "No color scale has been specified!" s) |}) ∧
  prototype.setClassName v s =
    (Normal tt,
     {| this := Pyramid.set_className v (this s);
        env := env (logged "No class name has been specified!" s) |}) ∧
  prototype.setRelativeWidth v s =
    (Normal tt,
     {| this := Pyramid.set_baseToHeightRatio v (this s);
        env := env (logged "No relative width has been specified!" s) |}) ∧
  prototype.setParentContainer v s =
    (Normal tt,
     {| this := Pyramid.set_parentContainer v (this s);
        env := env (logged "No parent container element has been specified!" s) |}) ∧
  prototype.setMargins v s =
    (match v with
     | VUndefined | VNull => Throw TypeError
     | _ => Normal tt
     end,
     logged "No margins have been specified!" s).
Proof.
  intros Hv.
  unfold prototype.setColorScale, prototype.setClassName,
    prototype.setRelativeWidth, prototype.setParentContainer, prototype.setMargins.
  rewrite Hv. repeat split.
  destruct s as [[d r pc [oh ow [t b l rt] ih iw c] cls af cs] w].
  destruct v; try discriminate Hv; reflexivity.
Qed.

Lemma setters_on_falsy_argument_witness :
  truthy (VNum 0) = false ∧
  prototype.setRelativeWidth (VNum 0) sample_machine =
    (Normal tt,
     {| this := Pyramid.set_baseToHeightRatio (VNum 0) sample_pyramid;
        env := env (logged "No relative width has been specified!" sample_machine) |}).
Proof.
  split; [reflexivity|].
  apply (setters_on_falsy_argument sample_machine (VNum 0)). reflexivity.
Defined.

(** C8, counterexample: [setMargins({left: 0})] names the left side, and
    the left margin of the sample instance stays 25. *)
Lemma setMargins_left_zero_ignored :
  ∃ s', prototype.setMargins (VObj {[ "left" := VNum 0 ]}) sample_machine
          = (Normal tt, s') ∧
        margins.left (margins_of sample_machine) = VNum 25 ∧
        margins.left (margins_of s') = VNum 25.
Proof. eexists. repeat split. Qed.

(** C8, as amended: for every instance and every partial margins object,
    setMargins returns normally, each side the object names with a truthy
    value is updated to that value, each side it does not name or names with
    a falsy value keeps its prior value, and nothing but the margins
    changes; in particular setMargins({left: 40}) changes only the left
    margin. *)
Theorem setMargins_merges_truthy_sides `{Host} (s : machine)
    (props : gmap string value) :
  (∃ s', prototype.setMargins (VObj props) s = (Normal tt, s') ∧
     env s' = env s ∧
     this s' = Pyramid.set_dimensions
                 (dimensions.set_margins (margins_of s') (Pyramid.dimensions (this s)))
                 (this s) ∧
     ∀ sd : side,
       (∀ v, props !! side_name sd = Some v → truthy v = true →
          margin_side sd (margins_of s') = v) ∧
       (∀ v, props !! side_name sd = Some v → truthy v = false →
          margin_side sd (margins_of s') = margin_side sd (margins_of s)) ∧
       (props !! side_name sd = None →
          margin_side sd (margins_of s') = margin_side sd (margins_of s)))
  ∧
  (∃ s', prototype.setMargins (VObj {[ "left" := VNum 40 ]}) s = (Normal tt, s') ∧
     margins_of s' =
       margins.mk (margins.top (margins_of s)) (margins.bottom (margins_of s))
         (VNum 40) (margins.right (margins_of s))).
Proof.
  split.
  - eexists. split; [apply setMargins_object|].
    split; [reflexivity|]. split; [reflexivity|].
    intros sd. cbn [this margins_of Pyramid.set_dimensions Pyramid.dimensions
      dimensions.set_margins dimensions.margins].
    unfold merged_margins, merge_side, field.
    repeat split.
    + intros v Hv Ht. destruct sd; cbn in Hv |- *; by rewrite Hv; cbn; rewrite Ht.
    + intros v Hv Ht. destruct sd; cbn in Hv |- *; by rewrite Hv; cbn; rewrite Ht.
    + intros Hv. destruct sd; cbn in Hv |- *; by rewrite Hv.
  - eexists. split; [apply setMargins_object|].
    by destruct s as [[d r pc [oh ow [t b l rt] ih iw c] cls af cs] w].
Qed.

(** C10: a side that setMargins is given with a falsy value (0, NaN, the
    empty string, false, null, undefined) is left unchanged; and whatever
    the argument, a side that is falsy after the call, zero included, is
    the value it already held before: setMargins cannot set a margin to
    zero. *)
Theorem setMargins_falsy_side_unchanged `{Host} (s : machine)
    (props : gmap string value) (sd : side) (v : value) :
  props !! side_name sd = Some v → truthy v = false →
  margin_side sd (margins_of (prototype.setMargins (VObj props) s).2)
    = margin_side sd (margins_of s)
  ∧
  (∀ (arg : value) (sd' : side),
     let after := margin_side sd' (margins_of (prototype.setMargins arg s).2) in
     truthy after = false → after = margin_side sd' (margins_of s)).
Proof.
  intros Hv Ht. split.
  - rewrite setMargins_margins. unfold merged_margins, merge_side, field.
    destruct sd; cbn in Hv |- *; by rewrite Hv; cbn; rewrite Ht.
  - intros arg sd' after. subst after.
    rewrite setMargins_margins. unfold merged_margins, merge_side.
    destruct sd'; cbn;
      match goal with |- context [truthy (field arg ?n)] =>
        destruct (truthy (field arg n)) eqn:E end;
      intros Hf; congruence.
Qed.

Lemma setMargins_falsy_side_unchanged_witness :
  ({[ "left" := VNum 0 ]} : gmap string value) !! side_name side_left = Some (VNum 0) ∧
  truthy (VNum 0) = false ∧
  margin_side side_left
    (margins_of (prototype.setMargins (VObj {[ "left" := VNum 0 ]}) sample_machine).2)
    = margin_side side_left (margins_of sample_machine).
Proof.
  split; [reflexivity|]. split; [reflexivity|].
  exact (proj1 (setMargins_falsy_side_unchanged sample_machine
                  {[ "left" := VNum 0 ]} side_left (VNum 0) eq_refl eq_refl)).
Defined.

(** * The constructor *)

(** A missing dataset alone is only logged. *)
Example new_Pyramid_missing_data :
  ∃ p, new_Pyramid VUndefined (VStr "#visualization") VUndefined VUndefined
         VUndefined sample_world
       = (Normal p,
          {| console := ["We have no data to put into the pyramid!"];
             store := store sample_world; page := page sample_world |}) ∧
       Pyramid.data p = VUndefined ∧ Pyramid.className p = VStr "pyramid" ∧
       Pyramid.autoFit p = VBool true.
Proof. eexists. repeat split. Qed.

(** C4: constructed without a parent container (undefined or null), the
    constructor logs its diagnostic and then throws a TypeError, at
    [parentContainer.split("#")]: no instance is returned. *)
Theorem new_Pyramid_missing_container_throws `{Host}
    (data className autoFit colorScale : value) (w : world) :
  let w' :=
    {| console := console w
         ++ (if truthy data then [] else ["We have no data to put into the pyramid!"])
         ++ ["A parent element has not been specified!"];
       store := store w; page := page w |} in
  new_Pyramid data VUndefined className autoFit colorScale w = (Throw TypeError, w') ∧
  new_Pyramid data VNull className autoFit colorScale w = (Throw TypeError, w').
Proof.
  unfold new_Pyramid, mbind, M_bind, when, console_error, modify.
  cbn -[truthy]. destruct (truthy data); cbn; rewrite <- ?app_assoc; done.
Qed.

Section Construction.
Context `{Host}.

(** The constructor always leaves a boolean in the own property [autoFit]. *)
Lemma new_Pyramid_autoFit (data parentContainer className autoFit colorScale : value)
    (w w' : world) (p : Pyramid.t) :
  new_Pyramid data parentContainer className autoFit colorScale w = (Normal p, w') →
  Pyramid.autoFit p = VBool (if loosely_false (store w) autoFit then false else true).
Proof.
  unfold new_Pyramid, mbind, M_bind, when, console_error, modify, String_split,
    getComputedStyle, gets, throw, mret, M_ret.
  destruct (negb (truthy data)), (negb (truthy parentContainer));
    destruct parentContainer; cbn -[loosely_false ToString split getElementById];
    try discriminate;
    destruct (getElementById _ _); cbn; intros [= <- <-]; reflexivity.
Qed.
End Construction.

(** C9: on every constructed instance, calling the auto-fit setter throws
    a TypeError and changes nothing, whatever the flag: no property is named
    [setAutoFit], and [autoFit] finds the boolean own property the
    constructor stored, which hides the method of the prototype. *)
Theorem autoFit_setter_not_callable `{Host}
    (data parentContainer className autoFit colorScale : value)
    (w w' : world) (p : Pyramid.t) :
  new_Pyramid data parentContainer className autoFit colorScale w = (Normal p, w') →
  Pyramid_prototype !! "autoFit" = Some m_autoFit ∧
  ∀ (flag : bool) (w'' : world),
    let s := {| this := p; env := w'' |} in
    call "setAutoFit" [VBool flag] s = (Throw TypeError, s) ∧
    call "autoFit" [VBool flag] s = (Throw TypeError, s).
Proof.
  intros Hnew. split; [reflexivity|].
  intros flag w'' s. apply new_Pyramid_autoFit in Hnew.
  unfold call, mbind, M_bind, gets, lookup_property. cbn -[own_properties].
  split.
  - reflexivity.
  - change (own_properties p !! "autoFit") with (Some (Own (Pyramid.autoFit p))).
    rewrite Hnew. reflexivity.
Qed.

Lemma autoFit_setter_not_callable_witness :
  new_Pyramid (VArr 0) (VStr "#visualization") (VStr "pyramid-2") (VBool true)
    VUndefined sample_world = (Normal sample_pyramid, sample_world) ∧
  call "setAutoFit" [VBool false] sample_machine = (Throw TypeError, sample_machine) ∧
  call "autoFit" [VBool false] sample_machine = (Throw TypeError, sample_machine).
Proof.
  split; [reflexivity|].
  exact (proj2 (autoFit_setter_not_callable (VArr 0) (VStr "#visualization")
                  (VStr "pyramid-2") (VBool true) VUndefined sample_world sample_world
                  sample_pyramid eq_refl) false sample_world).
Defined.

(** * render *)

(** ** The heap is only written by the reversal *)

Create HintDb frame.

Section Frame.
Context `{Host}.

Lemma keeps_ret {A} (a : A) : keeps_store (mret a).
Proof. by intros s. Qed.

Lemma keeps_throw {A} (e : error) : keeps_store (throw e : M machine A).
Proof. by intros s. Qed.

Lemma keeps_gets {A} (f : machine → A) : keeps_store (gets f).
Proof. by intros s. Qed.

Lemma keeps_bind {A B} (m : M machine A) (f : A → M machine B) :
  keeps_store m → (∀ a, keeps_store (f a)) → keeps_store (m ≫= f).
Proof.
  intros Hm Hf s. unfold mbind, M_bind. specialize (Hm s).
  destruct (m s) as [[a|e] s1]; cbn in *; [|done].
  by rewrite Hf.
Qed.

Lemma keeps_when (b : bool) (m : M machine unit) :
  keeps_store m → keeps_store (when b m).
Proof. intros Hm. destruct b; [done|apply keeps_ret]. Qed.

Lemma keeps_lift {A} (m : M world A) : keeps_store_w m → keeps_store (lift m).
Proof.
  intros Hm s. unfold lift. specialize (Hm (env s)).
  by destruct (m (env s)).
Qed.

Lemma keeps_update_this (f : Pyramid.t → Pyramid.t) : keeps_store (update_this f).
Proof. by intros s. Qed.

Lemma keeps_each {A B} (f : A → nat → M machine B) (i : nat) (l : list A) :
  (∀ d k, keeps_store (f d k)) → keeps_store (each f i l).
Proof.
  intros Hf. revert i.
  induction l as [|d l IH]; intros i; cbn [each].
  - apply keeps_ret.
  - apply keeps_bind; [apply Hf|intros b].
    apply keeps_bind; [apply IH|intros bs]. apply keeps_ret.
Qed.

Lemma keeps_console_error (msg : string) : keeps_store_w (console_error msg).
Proof. by intros w. Qed.

Lemma keeps_update_page (f : document → document) : keeps_store_w (update_page f).
Proof. by intros w. Qed.

Lemma keeps_d3_selectAll (v : value) : keeps_store_w (d3_selectAll v).
Proof.
  intros w. destruct v; try done.
  unfold d3_selectAll. by destruct (querySelectorAll _ _).
Qed.

Lemma keeps_d3_select (v : value) : keeps_store_w (d3_select v).
Proof.
  intros w. destruct v; try done.
  unfold d3_select. by destruct (querySelector _ _) as [[?|]|].
Qed.

Lemma keeps_append_svg (sel : selection) (node : svg_node) :
  keeps_store_w (append_svg sel node).
Proof. intros w. by destruct sel. Qed.

Lemma keeps_append_g (sel : selection) (node : g_node) :
  keeps_store_w (append_g sel node).
Proof. intros w. by destruct sel. Qed.

Lemma keeps_update_canvas (sel : selection) (f : g_node → g_node) :
  keeps_store_w (update_canvas sel f).
Proof. intros w. by destruct sel. Qed.

Lemma keeps_Array_items (v : value) : keeps_store_w (Array_items v).
Proof.
  intros w. destruct v; try done.
  unfold Array_items. by destruct (store w !! l).
Qed.

Lemma keeps_Array_length (v : value) : keeps_store_w (Array_length v).
Proof.
  intros w. unfold Array_length, mbind, M_bind.
  pose proof (keeps_Array_items v w) as Hw.
  by destruct (Array_items v w) as [[?|?] ?].
Qed.
End Frame.

#[export] Hint Resolve keeps_ret keeps_throw keeps_gets keeps_update_this
  keeps_console_error keeps_update_page keeps_d3_selectAll keeps_d3_select
  keeps_append_svg keeps_append_g keeps_update_canvas keeps_Array_items
  keeps_Array_length : frame.

Ltac frame :=
  repeat first
    [ apply keeps_bind; [|intros ?]
    | apply keeps_when
    | apply keeps_lift
    | apply keeps_each; intros ? ?
    | match goal with
      | |- keeps_store (match ?x with _ => _ end) => destruct x
      end
    | solve [eauto with frame] ].

Section RenderFrame.
Context `{Host}.

Lemma keeps_setRelativeWidth (v : value) : keeps_store (prototype.setRelativeWidth v).
Proof. unfold prototype.setRelativeWidth. frame. Qed.

Lemma keeps_this_chart : keeps_store prototype.this_chart.
Proof. unfold prototype.this_chart. frame. Qed.

Lemma keeps_calcBaseToHeightRatio : keeps_store prototype.calcBaseToHeightRatio.
Proof.
  unfold prototype.calcBaseToHeightRatio, js_now. frame.
Qed.

Lemma keeps_generatePoints (i c h : value) :
  keeps_store (prototype.generatePoints i c h).
Proof. unfold prototype.generatePoints, js_now. frame. Qed.

Lemma keeps_call_colorScale (d : value) : keeps_store (prototype.call_colorScale d).
Proof. unfold prototype.call_colorScale. frame. Qed.

Lemma keeps_setDimensions : keeps_store prototype.setDimensions.
Proof. unfold prototype.setDimensions, js_now, update_dimensions. frame. Qed.

(** [render] is the reversal of [this.data], in place, followed by steps
    that leave the heap alone. *)
Lemma render_store (s : machine) (l : loc) (xs : list value) :
  Pyramid.data (this s) = VArr l → store (env s) !! l = Some xs →
  store (env (prototype.render s).2) = <[l := rev xs]> (store (env s)).
Proof.
  intros Hdata Hxs. unfold prototype.render.
  unfold mbind at 1, M_bind at 1, gets at 1. rewrite Hdata.
  unfold mbind at 1, M_bind at 1, lift at 1, Array_reverse. rewrite Hxs.
  match goal with |- store (env (?m ?s1).2) = _ =>
    assert (Hk : keeps_store m); [|by rewrite Hk] end.
  unfold js_now.
  frame; auto using keeps_setDimensions, keeps_this_chart,
    keeps_calcBaseToHeightRatio, keeps_setRelativeWidth, keeps_generatePoints,
    keeps_call_colorScale.
Qed.
End RenderFrame.

(** C1: [render] reverses the caller's array in place: after one call the
    array the caller passed in reads in the opposite order. *)
Theorem render_reverses_callers_array `{Host} (s : machine) (l : loc)
    (xs : list value) :
  Pyramid.data (this s) = VArr l → store (env s) !! l = Some xs →
  store (env (prototype.render s).2) !! l = Some (rev xs).
Proof.
  intros Hdata Hxs. rewrite (render_store s l xs Hdata Hxs).
  apply lookup_insert_eq.
Qed.

Lemma render_reverses_callers_array_witness :
  store (env sample_machine) !! 0 = Some [VStr "A"; VStr "B"] ∧
  store (env (prototype.render sample_machine).2) !! 0 = Some [VStr "B"; VStr "A"].
Proof.
  split; [reflexivity|].
  exact (render_reverses_callers_array sample_machine 0 [VStr "A"; VStr "B"]
           eq_refl eq_refl).
Defined.

(** C2: on the sample instance a second [render] changes the drawing.
    After one call the container holds one [svg], with the label "B" at the
    base (y = 280) and "A" above it (y = 105).  After two calls it holds
    two: [selection.empty()] only tests the selection, so the first [svg]
    is still there, and the second one carries the same polygons with the
    labels exchanged, the array having been reversed once more. *)
Theorem render_twice_accumulates :
  let B_below_A :=
    [ (VStr "B", VNum 125, VNum 280); (VStr "A", VNum 125, VNum 105) ] in
  let A_below_B :=
    [ (VStr "A", VNum 125, VNum 280); (VStr "B", VNum 125, VNum 105) ] in
  let triangles :=
    [ [ Point (VNum 125) (VNum 0); Point (VNum 0) (VNum 350);
        Point (VNum 250) (VNum 350) ];
      [ Point (VNum 125) (VNum 0); Point (VNum 62.5) (VNum 175);
        Point (VNum 187.5) (VNum 175) ] ] in
  ∃ once twice : machine,
    prototype.render sample_machine = (Normal tt, once) ∧
    (prototype.render;; prototype.render) sample_machine = (Normal tt, twice) ∧
    labels <$> drawn (env once) 0 = [ B_below_A ] ∧
    polygons <$> drawn (env once) 0 = [ triangles ] ∧
    labels <$> drawn (env twice) 0 = [ B_below_A; A_below_B ] ∧
    polygons <$> drawn (env twice) 0 = [ triangles; triangles ].
Proof.
  intros B_below_A A_below_B triangles.
  eexists _, _. split; [vm_compute; reflexivity|].
  split; [vm_compute; reflexivity|].
  repeat split.
Qed.

(** ** The ratio in force when the slices are generated *)


Lemma alter_last_snoc {A} (f : A → A) (l : list A) (a : A) :
  alter_last f (l ++ [a]) = l ++ [f a].
Proof.
  unfold alter_last. rewrite length_app, Nat.add_1_r.
  induction l as [|b l IH]; [done|].
  cbn. f_equal. apply IH.
Qed.

Section RenderSteps.
Context `{Host}.

Lemma each_generatePoints (idx : nat → value) (c h : value) (items : list value)
    (k : nat) (s : machine) :
  each (λ _ i, prototype.generatePoints (idx i) c h) k items s =
    (Normal (imap (λ j _,
       @generatePoints value (js (store (env s)))
         (Pyramid.baseToHeightRatio (this s)) (idx (k + j)) c h) items), s).
Proof.
  revert k. induction items as [|d items IH]; intros k; [done|].
  cbn [each]. unfold mbind at 1, M_bind at 1.
  change (prototype.generatePoints (idx k) c h s)
    with (Normal (@generatePoints value (js (store (env s)))
            (Pyramid.baseToHeightRatio (this s)) (idx k) c h), s).
  cbn beta iota. unfold mbind at 1, M_bind at 1. rewrite IH.
  unfold mret, M_ret. rewrite imap_cons, Nat.add_0_r. do 3 f_equal.
  apply imap_ext. intros j x _. unfold compose.
  by replace (k + S j) with (S k + j) by lia.
Qed.

Lemma each_call_colorScale (f : string) (items : list value) (k : nat) (s : machine) :
  Pyramid.colorScale (this s) = VFun f →
  each (λ d _, prototype.call_colorScale d) k items s =
    (Normal ((λ d, (f, d)) <$> items), s).
Proof.
  intros Hf. revert k. induction items as [|d items IH]; intros k; [done|].
  cbn [each]. unfold mbind at 1, M_bind at 1.
  assert (Hd : prototype.call_colorScale d s = (Normal (f, d), s)).
  { unfold prototype.call_colorScale, mbind, M_bind, gets. by rewrite Hf. }
  rewrite Hd. unfold mbind at 1, M_bind at 1. by rewrite IH.
Qed.
End RenderSteps.


Section RenderAutoFit.
Context `{Host}.





End RenderAutoFit.


(** * More of the constructor *)

(** ** Splitting around a separator *)

Section Split.
Variables (c0 : ascii) (r : string).
Local Abbreviation sep := (String c0 r).

Lemma prefix_app (s t : string) : String.prefix s (s +:+ t) = true.
Proof.
  induction s as [|a s IH]; [by destruct t|].
  change (String a s +:+ t) with (String a (s +:+ t)). cbn [String.prefix].
  destruct (ascii_dec a a); [apply IH|done].
Qed.

Lemma split_from_skip (q t cur : string) :
  split_from sep (String.length q) cur (q +:+ t) = split_from sep 0 cur t.
Proof.
  induction q as [|a q IH]; [done|].
  change (String a q +:+ t) with (String a (q +:+ t)). apply IH.
Qed.

(** At an occurrence of the separator the current piece ends. *)
Lemma split_from_sep (cur t : string) :
  split_from sep 0 cur (sep +:+ t) = cur :: split_from sep 0 "" t.
Proof.
  change (sep +:+ t) with (String c0 (r +:+ t)).
  cbn [split_from].
  change (String c0 (r +:+ t)) with (sep +:+ t). rewrite prefix_app.
  f_equal. replace (String.length sep - 1) with (String.length r) by (cbn; lia).
  apply split_from_skip.
Qed.

Lemma append_assoc (a b c : string) : (a +:+ b) +:+ c = a +:+ (b +:+ c).
Proof.
  induction a as [|x a IH]; [done|].
  change (String x ((a +:+ b) +:+ c) = String x (a +:+ (b +:+ c))). by rewrite IH.
Qed.

Lemma append_empty_r (a : string) : a +:+ "" = a.
Proof.
  induction a as [|x a IH]; [done|].
  change (String x (a +:+ "") = String x a). by rewrite IH.
Qed.

(** A stretch without the first character of the separator is not cut. *)
Lemma split_from_free (s cur t : string) :
  c0 ∉ chars s →
  split_from sep 0 cur (s +:+ sep +:+ t) = (cur +:+ s) :: split_from sep 0 "" t.
Proof.
  revert cur. induction s as [|a s IH]; intros cur Hfree.
  - rewrite append_empty_r. apply split_from_sep.
  - cbn [chars] in Hfree. apply not_elem_of_cons in Hfree as [Hne Hfree].
    change (String a s +:+ sep +:+ t) with (String a (s +:+ sep +:+ t)).
    cbn [split_from String.prefix].
    destruct (ascii_dec c0 a) as [Heq|_]; [by destruct Hne|].
    rewrite IH by done. by rewrite append_assoc.
Qed.

End Split.

(** [(h + "px").split("px")] is [[h, ""]] when [h] has no "p". *)
Lemma split_px (h : string) :
  "p"%char ∉ chars h → split "px" (h +:+ "px") = [h; ""].
Proof.
  intros Hfree. unfold split.
  pose proof (split_from_free "p"%char "x" h "" "" Hfree) as Hs.
  cbn in Hs. exact Hs.
Qed.



Section Constructor.
Context `{Host}.

(** The constructor in one step: it returns an instance exactly when the
    parent container is a string and [getElementById] finds its element. *)
Lemma new_Pyramid_run (data parentContainer className autoFit colorScale : value)
    (w : world) :
  new_Pyramid data parentContainer className autoFit colorScale w =
    (match parentContainer with
     | VStr sel =>
       match getElementById (page w) (ToString (store w) (index (split "#" sel) 1)) with
       | Some e =>
         Normal (Pyramid.mk data (VNum 0.75) (or_else parentContainer VNull)
           (dimensions.mk (index (split "px" (el_height e)) 0)
              (index (split "px" (el_width e)) 0)
              (margins.mk (VNum 25) (VNum 25) (VNum 25) (VNum 25))
              VUndefined VUndefined None)
           (or_else className (VStr "pyramid"))
           (VBool (if loosely_false (store w) autoFit then false else true))
           (or_else colorScale (VFun "d3.scale.category20")))
       | None => Throw TypeError
       end
     | _ => Throw TypeError
     end, diagnosed data parentContainer w).
Proof.
  destruct w as [con st pg].
  unfold new_Pyramid, diagnosed, mbind, M_bind, when, console_error, modify,
    String_split, getComputedStyle, gets, throw, mret, M_ret.
  destruct parentContainer as [| |b|n|sel|l|props|f];
    cbn -[truthy loosely_false ToString split getElementById];
    destruct (truthy data);
    try destruct (truthy _);
    cbn -[loosely_false ToString split getElementById];
    rewrite ?app_nil_r, <- ?app_assoc; try reflexivity;
    destruct (getElementById _ _); reflexivity.
Qed.
End Constructor.







(** * More of the methods *)

(** X7: on every instance the constructor returns,
    [calcBaseToHeightRatio] throws a TypeError and changes nothing, for the
    chart dimensions do not exist yet; once [setDimensions] has run it
    returns (chart width / 2) / chart height, the chart being the outer size
    less the margins. *)
Theorem calcBaseToHeightRatio_needs_dimensions `{Host}
    (data parentContainer className autoFit colorScale : value)
    (w w' : world) (p : Pyramid.t) :
  new_Pyramid data parentContainer className autoFit colorScale w = (Normal p, w') →
  ∀ w'' : world,
    let s := {| this := p; env := w'' |} in
    let J := js (store w'') in
    let d := Pyramid.dimensions p in
    let m := dimensions.margins d in
    let chartWidth := (dimensions.outerWidth d - margins.left m - margins.right m)%js in
    let chartHeight := (dimensions.outerHeight d - margins.top m - margins.bottom m)%js in
    prototype.calcBaseToHeightRatio s = (Throw TypeError, s) ∧
    ∃ s', prototype.setDimensions s = (Normal tt, s') ∧
          prototype.calcBaseToHeightRatio s' =
            (Normal (chartWidth / lit 2 / chartHeight)%js, s').
Proof.
  rewrite new_Pyramid_run. intros Hnew w''.
  destruct parentContainer; try discriminate Hnew.
  destruct (getElementById _ _); [|discriminate Hnew].
  injection Hnew as <- _. cbn zeta. split; [reflexivity|].
  match goal with |- ∃ s', prototype.setDimensions ?s = _ ∧ _ =>
    exists (prototype.setDimensions s).2 end.
  split; reflexivity.
Qed.

Lemma calcBaseToHeightRatio_needs_dimensions_witness :
  new_Pyramid (VArr 0) (VStr "#visualization") (VStr "pyramid-2") (VBool true)
    VUndefined sample_world = (Normal sample_pyramid, sample_world) ∧
  prototype.calcBaseToHeightRatio sample_machine = (Throw TypeError, sample_machine) ∧
  ∃ s', prototype.setDimensions sample_machine = (Normal tt, s') ∧
        prototype.calcBaseToHeightRatio s' = (Normal (VNum (250 / 2 / 350)), s').
Proof.
  split; [reflexivity|].
  exact (calcBaseToHeightRatio_needs_dimensions (VArr 0) (VStr "#visualization")
           (VStr "pyramid-2") (VBool true) VUndefined sample_world sample_world
           sample_pyramid eq_refl sample_world).
Defined.


(** X9: on every instance, each method of the prototype other than
    [autoFit] is found under its name, no own property hiding it, so that
    calling it by name runs the method. *)
Theorem call_runs_method `{Host} (name : string) (m : method) (args : list value)
    (s : machine) :
  Pyramid_prototype !! name = Some m → name ≠ "autoFit" →
  call name args s = run m args s.
Proof.
  intros Hm Hne.
  apply elem_of_list_to_map_2 in Hm.
  unfold call, mbind, M_bind, gets, lookup_property.
  repeat (apply elem_of_cons in Hm as [[= -> ->]|Hm]; [try done|]).
  by apply elem_of_nil in Hm.
Qed.

Lemma call_runs_method_witness :
  Pyramid_prototype !! "setClassName" = Some m_setClassName ∧
  call "setClassName" [VStr "chart"] sample_machine
    = run m_setClassName [VStr "chart"] sample_machine.
Proof.
  split; [reflexivity|].
  exact (call_runs_method "setClassName" m_setClassName [VStr "chart"]
           sample_machine eq_refl ltac:(discriminate)).
Defined.

(** * More of render *)

(** X10: on an instance whose dataset has no [reverse] to call (it is
    undefined, as when the dataset is missing, or null, a boolean, a number,
    a string, or an object without a callable [reverse] property), [render]
    throws a TypeError at its first statement and changes nothing: no
    dimension is computed, nothing is logged, nothing is drawn. *)
Theorem render_without_array `{Host} (s : machine) :
  lacks_reverse (Pyramid.data (this s)) = true →
  prototype.render s = (Throw TypeError, s).
Proof.
  intros Hdata. destruct s as [[data r pc d cls af cs] w].
  cbn [this Pyramid.data] in Hdata.
  unfold prototype.render.
  unfold mbind at 1, M_bind at 1, gets at 1. cbn [this Pyramid.data].
  unfold mbind at 1, M_bind at 1, lift at 1.
  destruct data as [| |b|n|str|l|props|f]; try done.
  unfold Array_reverse. unfold lacks_reverse in Hdata.
  destruct (props !! "reverse") as [[]|]; done.
Qed.

Lemma render_without_array_witness :
  prototype.render
    {| this := Pyramid.mk VUndefined (VNum 0.75) (VStr "#visualization")
         (Pyramid.dimensions sample_pyramid) (VStr "pyramid") (VBool true)
         (VFun "d3.scale.category20");
       env := sample_world |}
  = (Throw TypeError,
     {| this := Pyramid.mk VUndefined (VNum 0.75) (VStr "#visualization")
          (Pyramid.dimensions sample_pyramid) (VStr "pyramid") (VBool true)
          (VFun "d3.scale.category20");
        env := sample_world |}).
Proof.
  exact (render_without_array
           {| this := Pyramid.mk VUndefined (VNum 0.75) (VStr "#visualization")
                (Pyramid.dimensions sample_pyramid) (VStr "pyramid") (VBool true)
                (VFun "d3.scale.category20");
              env := sample_world |} eq_refl).
Defined.

(** ** What render leaves alone in the instance *)

Section ThisFrame.
Context `{Host} {T : Type} (f : Pyramid.t → T).

Lemma this_ret {A} (a : A) : keeps_this f (mret a).
Proof. by intros s. Qed.

Lemma this_throw {A} (e : error) : keeps_this f (throw e : M machine A).
Proof. by intros s. Qed.

Lemma this_gets {A} (g : machine → A) : keeps_this f (gets g).
Proof. by intros s. Qed.

Lemma this_bind {A B} (m : M machine A) (k : A → M machine B) :
  keeps_this f m → (∀ a, keeps_this f (k a)) → keeps_this f (m ≫= k).
Proof.
  intros Hm Hk s. unfold mbind, M_bind. specialize (Hm s).
  destruct (m s) as [[a|e] s1]; cbn in *; [|done].
  by rewrite Hk.
Qed.

Lemma this_when (b : bool) (m : M machine unit) :
  keeps_this f m → keeps_this f (when b m).
Proof. intros Hm. destruct b; [done|apply this_ret]. Qed.

Lemma this_lift {A} (m : M world A) : keeps_this f (lift m).
Proof. intros s. unfold lift. by destruct (m (env s)). Qed.

Lemma this_update (g : Pyramid.t → Pyramid.t) :
  (∀ p, f (g p) = f p) → keeps_this f (update_this g).
Proof. intros Hg s. apply Hg. Qed.

Lemma this_each {A B} (k : A → nat → M machine B) (i : nat) (l : list A) :
  (∀ d j, keeps_this f (k d j)) → keeps_this f (each k i l).
Proof.
  intros Hk. revert i.
  induction l as [|d l IH]; intros i; cbn [each].
  - apply this_ret.
  - apply this_bind; [apply Hk|intros b].
    apply this_bind; [apply IH|intros bs]. apply this_ret.
Qed.
End ThisFrame.

Ltac frame_this :=
  repeat first
    [ apply this_bind; [|intros ?]
    | apply this_when
    | apply this_lift
    | apply this_each; intros ? ?
    | apply this_ret
    | apply this_throw
    | apply this_gets
    | apply this_update; solve [by intros [? ? ? [? ? ? ? ? ?] ? ? ?]]
    | match goal with
      | |- keeps_this _ (match ?x with _ => _ end) => destruct x
      end ].

Section RenderThis.
Context `{Host}.

Lemma render_settings : keeps_this settings prototype.render.
Proof.
  unfold prototype.render, prototype.setDimensions, prototype.calcBaseToHeightRatio,
    prototype.setRelativeWidth, prototype.generatePoints, prototype.call_colorScale,
    prototype.this_chart, update_dimensions, js_now.
  frame_this.
Qed.

(** Past the reading of [self], with autoFit off, nothing writes the ratio. *)
Lemma setDimensions_ratio :
  keeps_this (λ p, (Pyramid.baseToHeightRatio p, Pyramid.autoFit p))
    prototype.setDimensions.
Proof. unfold prototype.setDimensions, update_dimensions, js_now. frame_this. Qed.

Lemma render_ratio (s : machine) :
  truthy (Pyramid.autoFit (this s)) = false →
  Pyramid.baseToHeightRatio (this (prototype.render s).2)
    = Pyramid.baseToHeightRatio (this s).
Proof.
  intros Haf. unfold prototype.render.
  unfold mbind at 1, M_bind at 1, gets at 1.
  unfold mbind at 1, M_bind at 1.
  pose proof (this_lift (λ p, p) (Array_reverse (Pyramid.data (this s))) s) as H1.
  destruct (lift _ s) as [[reversed|e] s1]; cbn in H1 |- *; [|by rewrite H1].
  unfold mbind at 1, M_bind at 1.
  pose proof (setDimensions_ratio s1) as H2.
  destruct (prototype.setDimensions s1) as [[[]|e] s2]; cbn in H2 |- *;
    [|by injection H2 as -> _; rewrite H1].
  injection H2 as Hr Ha. rewrite H1 in Hr, Ha.
  unfold mbind at 1, M_bind at 1, js_now at 1, gets at 1.
  unfold mbind at 1, M_bind at 1, gets at 1.
  rewrite Ha, Haf. rewrite <- Hr. cbn [when].
  match goal with |- Pyramid.baseToHeightRatio (this (?m s2).2) = _ =>
    assert (Hk : keeps_this Pyramid.baseToHeightRatio m); [|apply Hk] end.
  unfold prototype.generatePoints, prototype.call_colorScale, prototype.this_chart,
    js_now.
  frame_this.
Qed.
End RenderThis.

(** X11: whatever the instance and however it ends, [render] leaves the
    dataset reference, the parent container, the class name, the autoFit
    flag, the colour scale, the outer size and the margins of the instance
    as they were; and when autoFit is off (falsy) it leaves baseToHeightRatio
    as well, so that a ratio set with setRelativeWidth stays. *)
Theorem render_keeps_settings `{Host} (s : machine) :
  let p := this s in
  let p' := this (prototype.render s).2 in
  Pyramid.data p' = Pyramid.data p ∧
  Pyramid.parentContainer p' = Pyramid.parentContainer p ∧
  Pyramid.className p' = Pyramid.className p ∧
  Pyramid.autoFit p' = Pyramid.autoFit p ∧
  Pyramid.colorScale p' = Pyramid.colorScale p ∧
  dimensions.outerHeight (Pyramid.dimensions p')
    = dimensions.outerHeight (Pyramid.dimensions p) ∧
  dimensions.outerWidth (Pyramid.dimensions p')
    = dimensions.outerWidth (Pyramid.dimensions p) ∧
  dimensions.margins (Pyramid.dimensions p')
    = dimensions.margins (Pyramid.dimensions p) ∧
  (truthy (Pyramid.autoFit p) = false →
   Pyramid.baseToHeightRatio p' = Pyramid.baseToHeightRatio p).
Proof.
  intros p p'. pose proof (render_settings s) as Hs.
  unfold settings in Hs. fold p p' in Hs.
  injection Hs as ? ? ? ? ? ? ? ?.
  repeat (split; [done|]). apply render_ratio.
Qed.

(** X12: a second [render] reverses the caller's array back: after two
    calls (whether or not the drawing steps of either completed) the
    array reads in its original order again. *)
Theorem render_twice_restores_order `{Host} (s : machine) (l : loc)
    (xs : list value) :
  Pyramid.data (this s) = VArr l → store (env s) !! l = Some xs →
  store (env (prototype.render (prototype.render s).2).2) !! l = Some xs.
Proof.
  intros Hdata Hxs.
  pose proof (render_settings s) as Hs. injection Hs as Hd _ _ _ _ _ _ _.
  rewrite Hdata in Hd.
  rewrite (render_store _ l (rev xs) Hd).
  - by rewrite lookup_insert_eq, rev_involutive.
  - by rewrite (render_store s l xs Hdata Hxs), lookup_insert_eq.
Qed.

Lemma render_twice_restores_order_witness :
  store (env (prototype.render sample_machine).2) !! 0 = Some [VStr "B"; VStr "A"] ∧
  store (env (prototype.render (prototype.render sample_machine).2).2) !! 0
    = Some [VStr "A"; VStr "B"].
Proof.
  split; [reflexivity|].
  exact (render_twice_restores_order sample_machine 0 [VStr "A"; VStr "B"]
           eq_refl eq_refl).
Defined.

(** ** What render draws *)

Ltac step' := cbv beta iota zeta delta
  [mbind M_bind mret M_ret gets lift modify throw when negb js_now
   prototype.setDimensions update_dimensions update_this d3_selectAll d3_select
   append_svg append_g update_page update_canvas prototype.this_chart Array_length
   Array_items prototype.calcBaseToHeightRatio prototype.setRelativeWidth
   console_error this env store page console
   Pyramid.data Pyramid.baseToHeightRatio Pyramid.parentContainer
   Pyramid.dimensions Pyramid.className Pyramid.autoFit Pyramid.colorScale
   Pyramid.set_dimensions Pyramid.set_baseToHeightRatio
   dimensions.chart dimensions.margins dimensions.outerHeight
   dimensions.outerWidth dimensions.innerHeight dimensions.innerWidth
   margins.top margins.bottom margins.left margins.right
   chart.width chart.height].

Lemma fill_paths (G : nat → value → list (point value)) (f : string)
    (items : list value) :
  zip_with (λ p fill,
      {| path_d := path_d p; path_class := path_class p; path_fill := Some fill |})
    ((λ points,
        {| path_d := points; path_class := "slice triangle"; path_fill := None |})
       <$> imap G items)
    ((λ d, (f, d)) <$> items)
  = imap (λ k d,
      {| path_d := G k d; path_class := "slice triangle"; path_fill := Some (f, d) |})
    items.
Proof.
  revert G. induction items as [|d items IH]; intros G; [done|].
  rewrite !imap_cons. cbn. f_equal. apply IH.
Qed.

Section RenderDraws.
Context `{Host}.

(** The drawing of a well-formed call, in full: the container found by the
    host gets one more [svg], holding one group with a polygon and a label
    per item of the reversed array. *)
Lemma render_found (s : machine) (l : loc) (xs : list value)
    (nodes : list (list nat)) (sel f : string) (i : nat) :
  Pyramid.data (this s) = VArr l →
  store (env s) !! l = Some xs →
  let heap' := <[l := rev xs]> (store (env s)) in
  querySelectorAll (page (env s))
    ("." ++ ToString heap' (Pyramid.className (this s))) = Normal nodes →
  Pyramid.parentContainer (this s) = VStr sel →
  querySelector (page (env s)) sel = Normal (Some i) →
  Pyramid.colorScale (this s) = VFun f →
  ∃ s' svg canvas,
    prototype.render s = (Normal tt, s') ∧
    store (env s') = heap' ∧
    page (env s') = alter (with_children (λ c, c ++ [svg])) i (page (env s)) ∧
    svg_class svg = Pyramid.className (this s) ∧
    svg_children svg = [canvas] ∧
    let J := js heap' in
    let d := Pyramid.dimensions (this s') in
    let n := lit (Z.of_nat (length (rev xs))) in
    let center := (dimensions.innerWidth d / lit 2)%js in
    let sliceHeight := (dimensions.innerHeight d / n)%js in
    g_paths canvas =
      imap (λ k item,
        {| path_d := generatePoints (Pyramid.baseToHeightRatio (this s'))
                       (n - lit (Z.of_nat k) - lit 1)%js center sliceHeight;
           path_class := "slice triangle";
           path_fill := Some (f, item) |}) (rev xs) ∧
    g_texts canvas =
      imap (λ k item,
        {| text_content := item;
           text_x := center;
           text_y := ((n - lit (Z.of_nat k)) * sliceHeight - sliceHeight / VNum 2.5)%js;
           text_class := "pyramid-label" |}) (rev xs).
Proof.
  destruct s as [[data r pc [oh ow [t b lf rt] ih iw c] cls af cs] [con st pg]].
  intros Hdata Hxs heap' Hall Hpc Hsel Hcs.
  cbn [this env Pyramid.data Pyramid.autoFit Pyramid.className Pyramid.parentContainer
       Pyramid.dimensions Pyramid.colorScale store page] in *.
  subst data pc cs.
  unfold prototype.render.
  unfold mbind at 1, M_bind at 1, gets at 1. cbn [this Pyramid.data].
  unfold mbind at 1, M_bind at 1, lift at 1, Array_reverse. cbn [env store].
  rewrite Hxs. cbn [console store page].
  subst heap'.
  step'.
  change (VStr "." + cls)%js with (VStr ("." +:+ ToString (<[l:=rev xs]> st) cls)).
  step'. rewrite Hall, Hsel.
  assert (Hl : <[l:=rev xs]> st !! l = Some (rev xs)) by apply lookup_insert_eq.
  step'; rewrite !Hl; step'.
  destruct (truthy af); step';
    [ match goal with |- context [truthy ?v] => destruct (truthy v) end; step' |];
    rewrite Hl; step'; rewrite each_generatePoints; step';
    (rewrite (each_call_colorScale f); [|reflexivity]); step'.
  all: eexists _, _, _; split; [reflexivity|]; split; [reflexivity|].
  all: cbn [env page]; rewrite !list_alter_alter_eq.
  all: split;
    [ apply list_alter_ext; [|reflexivity]; intros e _; unfold compose, with_children;
      cbn [el_children el_id el_height el_width]; rewrite !alter_last_snoc;
      reflexivity |].
  all: split; [reflexivity|].
  all: cbn [with_canvas svg_children]; rewrite !alter_last_snoc.
  all: split; [reflexivity|].
  all: cbn [g_paths g_texts this Pyramid.dimensions Pyramid.baseToHeightRatio
            dimensions.innerWidth dimensions.innerHeight].
  all: split; [|reflexivity].
  all: apply (fill_paths (λ k _, _)).
Qed.

End RenderDraws.

(** What a caller reads off an [svg] whose only group was filled by
    [render]. *)
Lemma drawing_read (svg : svg_node) (canvas : g_node) (f : string)
    (its : list value) (G : nat → value → list (point value))
    (X Y : nat → value → value) (c c' : string) :
  svg_children svg = [canvas] →
  g_paths canvas =
    imap (λ k item, {| path_d := G k item; path_class := c;
                       path_fill := Some (f, item) |}) its →
  g_texts canvas =
    imap (λ k item, {| text_content := item; text_x := X k item;
                       text_y := Y k item; text_class := c' |}) its →
  length (polygons svg) = length its ∧
  fills svg = (λ d, Some (f, d)) <$> its ∧
  (λ t, t.1.1) <$> labels svg = its.
Proof.
  intros Hch Hpaths Htexts.
  unfold polygons, fills, labels. rewrite Hch. cbn [mbind list_bind].
  rewrite !app_nil_r, Hpaths, Htexts, length_fmap, length_imap.
  rewrite !fmap_imap. unfold compose. cbn [path_fill text_content fst].
  split; [reflexivity|]. split.
  - apply (imap_const (λ d, Some (f, d))).
  - rewrite (imap_const (λ d : value, d)). apply list_fmap_id.
Qed.







(** ** The sample application *)

(** [generateMoreData] in one step. *)
Lemma generateMoreData_run (w : world) :
  generateMoreData w =
    (Normal (VArr (fresh (dom (store w)))),
     {| console := console w;
        store := <[fresh (dom (store w)) :=
                     [VStr "Self-actualization"; VStr "Esteem"; VStr "Love/Belonging";
                      VStr "Safety"; VStr "Physiological"]]> (store w);
        page := page w |}).
Proof.
  destruct w as [con st pg].
  unfold generateMoreData, Array_new, Array_push, Array_reverse, mbind, M_bind.
  cbn [store console page]. set (l := fresh (dom st)).
  repeat (rewrite lookup_insert_eq; cbn [store console page app];
          rewrite insert_insert_eq).
  reflexivity.
Qed.

(** The two configuration calls of the handler, then [render]. *)
Lemma ready_configures `{Host} (p : Pyramid.t) (w : world) :
  (call "setRelativeWidth" [VNum 0.75];;
   call "setMargins" [VObj {[ "left" := VNum 40 ]}];;
   call "render" []) {| this := p; env := w |}
  = (prototype.render;; mret RUndefined)
      {| this :=
           Pyramid.set_dimensions
             (dimensions.set_margins
                (margins.mk (margins.top (dimensions.margins (Pyramid.dimensions p)))
                   (margins.bottom (dimensions.margins (Pyramid.dimensions p)))
                   (VNum 40)
                   (margins.right (dimensions.margins (Pyramid.dimensions p))))
                (Pyramid.dimensions p))
             (Pyramid.set_baseToHeightRatio (VNum 0.75) p);
         env := w |}.
Proof.
  by destruct p as [d r pc [oh ow [t b l rt] ih iw c] cls af cs], w as [con st pg].
Qed.

(** X16: [generateMoreData] allocates a new array, at an address the
    heap did not use, and returns it holding the five needs from
    "Self-actualization" down to "Physiological" (the reverse of the order
    in which it pushed them); every other array, the console and the page are
    as before. *)
Theorem generateMoreData_fresh_array (w : world) :
  ∃ l w',
    generateMoreData w = (Normal (VArr l), w') ∧
    store w !! l = None ∧
    store w' !! l =
      Some [VStr "Self-actualization"; VStr "Esteem"; VStr "Love/Belonging";
            VStr "Safety"; VStr "Physiological"] ∧
    (∀ k, k ≠ l → store w' !! k = store w !! k) ∧
    console w' = console w ∧ page w' = page w.
Proof.
  eexists _, _. split; [apply generateMoreData_run|]. cbn [store console page].
  split; [apply not_elem_of_dom, is_fresh|].
  split; [apply lookup_insert_eq|].
  split; [|done]. intros k Hk. by apply lookup_insert_ne.
Qed.

(** X17: the [ready] handler on a page whose [#visualization] element has
    a computed height and width in pixels and resolves as a selector: it
    completes normally, and has appended one [svg] of class "pyramid-2" to
    that element, holding five polygons and five labels that read from
    "Physiological" (drawn first, as the widest slice) to
    "Self-actualization".  The array it generated reads in that order
    afterwards too, every array of the heap that existed before is as it
    was, and the pyramid returned has the left margin 40 and the three other
    margins 25. *)
Theorem ready_draws_hierarchy `{Host} (w : world) (e e' : element) (h wd : string)
    (nodes : list (list nat)) (i : nat) :
  getElementById (page w) "visualization" = Some e →
  el_height e = h +:+ "px" → "p"%char ∉ chars h →
  el_width e = wd +:+ "px" → "p"%char ∉ chars wd →
  querySelectorAll (page w) ".pyramid-2" = Normal nodes →
  querySelector (page w) "#visualization" = Normal (Some i) →
  page w !! i = Some e' →
  ∃ p w' svg,
    ready w = (Normal p, w') ∧
    Pyramid.data p = VArr (fresh (dom (store w))) ∧
    store w' !! fresh (dom (store w)) =
      Some [VStr "Physiological"; VStr "Safety"; VStr "Love/Belonging";
            VStr "Esteem"; VStr "Self-actualization"] ∧
    (∀ k xs, store w !! k = Some xs → store w' !! k = Some xs) ∧
    dimensions.margins (Pyramid.dimensions p) =
      margins.mk (VNum 25) (VNum 25) (VNum 40) (VNum 25) ∧
    drawn w' i = el_children e' ++ [svg] ∧
    svg_class svg = VStr "pyramid-2" ∧
    length (polygons svg) = 5 ∧
    fills svg = (λ d, Some ("d3.scale.category20", d)) <$>
      [VStr "Physiological"; VStr "Safety"; VStr "Love/Belonging";
       VStr "Esteem"; VStr "Self-actualization"] ∧
    (λ t, t.1.1) <$> labels svg =
      [VStr "Physiological"; VStr "Safety"; VStr "Love/Belonging";
       VStr "Esteem"; VStr "Self-actualization"].
Proof.
  intros He Hh Hhp Hw Hwp Hall Hsel Hi.
  destruct w as [con st pg]. cbn [page store] in *.
  set (l := fresh (dom st)).
  unfold ready. unfold mbind at 1, M_bind at 1.
  rewrite generateMoreData_run. cbn [store console page]. fold l.
  unfold mbind at 1, M_bind at 1.
  rewrite new_Pyramid_run. cbn [page store].
  change (split "#" "#visualization") with [""; "visualization"].
  change (ToString _ (index [""; "visualization"] 1)) with "visualization".
  rewrite He, Hh, Hw, (split_px h Hhp), (split_px wd Hwp).
  change (loosely_false _ (VBool true)) with false.
  unfold or_else, diagnosed, index. cbn [truthy lookup list_lookup console store page app].
  rewrite app_nil_r.
  unfold with_instance. rewrite ready_configures.
  set (needs := [VStr "Self-actualization"; VStr "Esteem"; VStr "Love/Belonging";
                 VStr "Safety"; VStr "Physiological"]).
  match goal with
  | |- context [(prototype.render ≫= _) ?s] => set (s1 := s)
  end.
  destruct (render_found s1 l needs nodes "#visualization" "d3.scale.category20" i
              eq_refl (lookup_insert_eq st l needs) Hall eq_refl Hsel eq_refl)
    as (s' & svg & canvas & Hr & Hst & Hpg & Hcl & Hch & Hpaths & Htexts).
  cbn [env store page this s1] in Hst, Hpg.
  pose proof (render_settings s1) as Hset. rewrite Hr in Hset.
  injection Hset as Hd _ _ _ _ _ _ Hm.
  unfold mbind, M_bind. rewrite Hr.
  exists (this s'), (env s'), svg. split; [reflexivity|].
  split; [exact Hd|]. split; [by rewrite Hst, lookup_insert_eq|].
  split.
  { intros k xs Hk. rewrite Hst, insert_insert_eq, lookup_insert_ne; [done|].
    intros <-. pose proof (is_fresh (dom st)) as Hfresh.
    apply not_elem_of_dom in Hfresh. fold l in Hfresh. congruence. }
  split; [exact Hm|].
  split; [unfold drawn; by rewrite Hpg, list_lookup_alter_eq, Hi|].
  split; [exact Hcl|].
  exact (drawing_read svg canvas _ (rev needs) _ _ _ _ _ Hch Hpaths Htexts).
Qed.


Lemma ready_draws_hierarchy_witness :
  ∃ p w' svg,
    ready sample_world = (Normal p, w') ∧
    Pyramid.data p = VArr 1 ∧
    store w' !! 1 =
      Some [VStr "Physiological"; VStr "Safety"; VStr "Love/Belonging";
            VStr "Esteem"; VStr "Self-actualization"] ∧
    (∀ k xs, store sample_world !! k = Some xs → store w' !! k = Some xs) ∧
    dimensions.margins (Pyramid.dimensions p) =
      margins.mk (VNum 25) (VNum 25) (VNum 40) (VNum 25) ∧
    drawn w' 0 = [] ++ [svg] ∧
    svg_class svg = VStr "pyramid-2" ∧
    length (polygons svg) = 5 ∧
    fills svg = (λ d, Some ("d3.scale.category20", d)) <$>
      [VStr "Physiological"; VStr "Safety"; VStr "Love/Belonging";
       VStr "Esteem"; VStr "Self-actualization"] ∧
    (λ t, t.1.1) <$> labels svg =
      [VStr "Physiological"; VStr "Safety"; VStr "Love/Belonging";
       VStr "Esteem"; VStr "Self-actualization"].
Proof.
  exact (ready_draws_hierarchy sample_world
           {| el_id := "visualization"; el_height := "400px"; el_width := "300px";
              el_children := [] |}
           {| el_id := "visualization"; el_height := "400px"; el_width := "300px";
              el_children := [] |}
           "400" "300" [] 0
           eq_refl eq_refl ltac:(compute_done) eq_refl ltac:(compute_done)
           eq_refl eq_refl eq_refl).
Defined.
